(** * Android_Secure_Memory: the JNI shim [native-lib.cpp]

    A shallow embedding of [app/src/main/cpp/native-lib.cpp] and the
    properties of its four entry points ([checkCredentials],
    [getFlagLength], [decryptFlagIntoBuffer], [wipeFlagBuffer]) and of the
    helper [secure_memzero].

    The native code works on raw memory that it shares with the Java
    runtime, so the embedding is a state-and-error monad over a small
    block-structured memory:

    - memory is a list of blocks of bytes; a pointer is [NULL] or the
      index of a block (the code only ever holds pointers to the start of
      an allocation and indexes from there);
    - a [jchar] is two bytes, little endian (every Android ABI is little
      endian); a Java [char[]] is a block holding its elements, and the
      elements the Java caller sees are the decoding of that block;
    - a block that has been freed stays in the list with the bytes it held
      when it was freed, so that what a call leaves behind in released
      memory can be inspected;
    - an out-of-bounds access, an access to a freed block or a call of a
      JNI function on a null reference has no defined behaviour: the
      computation has no result ([None]);
    - what the code cannot control (whether [malloc] succeeds and what the
      fresh memory holds, whether the runtime pins the array or hands out
      a copy) is an argument of the call. *)

From Stdlib Require Import ZArith Lia Bool.
From stdpp Require Import base list strings.

Local Open Scope Z_scope.

(** ** Memory *)

Record block := Block {
  bytes  : list Z;   (* the bytes of the region, each in 0..255 *)
  live   : bool;     (* allocated and not yet released *)
  locked : bool      (* pinned in RAM by mlock *)
}.

Inductive event :=
| EvMemcmp (s1 s2 : nat) (n : Z).   (* a call memcmp(s1, s2, n) *)

Record world := World {
  heap    : list block;
  pending : option string;   (* class of the pending Java exception, if any *)
  trace   : list event       (* library calls made so far, oldest first *)
}.

Definition ptr := option nat.
Definition NULL : ptr := None.

Definition set_heap (h : list block) (w : world) : world :=
  World h (pending w) (trace w).

(** ** The monad: state over [world], [None] for undefined behaviour *)

Definition M (A : Type) : Type := world -> option (A * world).

Definition ret {A} (a : A) : M A := fun w => Some (a, w).

Definition bind {A B} (k : A -> M B) (m : M A) : M B :=
  fun w => match m w with
           | Some (a, w') => k a w'
           | None => None
           end.

Definition undefined {A} : M A := fun _ => None.

#[global] Instance M_ret : MRet M := @ret.
#[global] Instance M_bind : MBind M := @bind.

(** [for (i = start; i < start + n; i++) body(i)] *)
Fixpoint for_loop (n : nat) (i : Z) (body : Z -> M unit) : M unit :=
  match n with
  | O => ret tt
  | S n' => body i ;; for_loop n' (i + 1) body
  end.

(** ** Loads and stores

    Dereferencing [NULL], a freed block or an offset outside the block is
    undefined. *)

Definition load_byte (p : ptr) (i : Z) : M Z := fun w =>
  match p with
  | None => None
  | Some b =>
      match heap w !! b with
      | Some blk =>
          if live blk && (0 <=? i)
          then match bytes blk !! Z.to_nat i with
               | Some v => Some (v, w)
               | None => None
               end
          else None
      | None => None
      end
  end.

Definition store_byte (p : ptr) (i : Z) (v : Z) : M unit := fun w =>
  match p with
  | None => None
  | Some b =>
      match heap w !! b with
      | Some blk =>
          if live blk && (0 <=? i) && (i <? Z.of_nat (length (bytes blk)))
          then Some (tt, set_heap
                           (<[b := Block (<[Z.to_nat i := v]> (bytes blk))
                                         (live blk) (locked blk)]> (heap w)) w)
          else None
      | None => None
      end
  end.

(** A [jchar] (unsigned, 16 bits) at element index [i]: bytes [2i] (low)
    and [2i+1] (high). *)
Definition load_jchar (p : ptr) (i : Z) : M Z :=
  lo ← load_byte p (2 * i);
  hi ← load_byte p (2 * i + 1);
  ret (Z.lor lo (Z.shiftl hi 8)).

Definition store_jchar (p : ptr) (i : Z) (c : Z) : M unit :=
  store_byte p (2 * i) (Z.land c 255) ;;
  store_byte p (2 * i + 1) (Z.land (Z.shiftr c 8) 255).

(** Element [i] of a constant table. *)
Definition rodata (table : list Z) (i : Z) : M Z := fun w =>
  if 0 <=? i
  then match table !! Z.to_nat i with
       | Some v => Some (v, w)
       | None => None
       end
  else None.

Definition sizeof (table : list Z) : Z := Z.of_nat (length table).

(** ** Integer conversions (LP64: [int], [jint] and [jsize] have 32 bits,
    [size_t] has 64) *)

Definition to_size_t (x : Z) : Z := x mod 2 ^ 64.
Definition to_uchar (x : Z) : Z := Z.land x 255.
Definition to_jint (x : Z) : Z := (x + 2 ^ 31) mod 2 ^ 32 - 2 ^ 31.
Definition to_jchar (x : Z) : Z := x mod 2 ^ 16.
Definition sizeof_jchar : Z := 2.

(** The value of a [char] object holding byte [v]: [char] is unsigned on
    the ARM ABIs and signed on the x86 ones. *)
Definition char_value (char_signed : bool) (v : Z) : Z :=
  if char_signed && (128 <=? v) then v - 256 else v.

(** ** libc: malloc, free, mlock, munlock, memcmp

    None of these is part of the repository; they are modelled from the
    C library's documentation. *)

(** What [malloc] does is the allocator's choice: it fails ([None]) or it
    hands out a fresh region whose [i]th byte holds [g i]. *)
Definition alloc_choice := option (nat -> Z).

Definition garbage (g : nat -> Z) (n : Z) : list Z :=
  map g (seq 0 (Z.to_nat n)).

Definition new_block (bs : list Z) : M ptr := fun w =>
  Some (Some (length (heap w)),
        set_heap (heap w ++ [Block bs true false]) w).

Definition malloc (c : alloc_choice) (size : Z) : M ptr :=
  match c with
  | None => ret NULL
  | Some g => new_block (garbage g size)
  end.

(** [free(NULL)] does nothing; freeing anything but a live block is
    undefined. The bytes stay where they are, and so does the lock:
    [free] does not [munlock]. *)
Definition free (p : ptr) : M unit := fun w =>
  match p with
  | None => Some (tt, w)
  | Some b =>
      match heap w !! b with
      | Some blk =>
          if live blk
          then Some (tt, set_heap
                           (<[b := Block (bytes blk) false (locked blk)]>
                              (heap w)) w)
          else None
      | None => None
      end
  end.

Definition set_locked (l : bool) (p : ptr) : M unit := fun w =>
  match p with
  | None => None
  | Some b =>
      match heap w !! b with
      | Some blk =>
          if live blk
          then Some (tt, set_heap
                           (<[b := Block (bytes blk) true l]> (heap w)) w)
          else None
      | None => None
      end
  end.

(** The source ignores the results of [mlock] and [munlock]. *)
Definition mlock (p : ptr) (len : Z) : M unit := set_locked true p.
Definition munlock (p : ptr) (len : Z) : M unit := set_locked false p.

Fixpoint memcmp_loop (n : nat) (s1 s2 : ptr) (i : Z) : M Z :=
  match n with
  | O => ret 0
  | S n' =>
      a ← load_byte s1 i;
      b ← load_byte s2 i;
      if a =? b then memcmp_loop n' s1 s2 (i + 1) else ret (a - b)
  end.

Definition log (e : event) : M unit := fun w =>
  Some (tt, World (heap w) (pending w) (trace w ++ [e])).

Definition memcmp (s1 s2 : ptr) (n : Z) : M Z :=
  match s1, s2 with
  | Some b1, Some b2 =>
      log (EvMemcmp b1 b2 n) ;; memcmp_loop (Z.to_nat n) s1 s2 0
  | _, _ => undefined
  end.

(** A local array: it lives in the frame of the call, holds whatever the
    stack held, and goes away (unwiped, unless the code wipes it) when the
    function returns. *)
Definition local_array (g : nat -> Z) (size : Z) : M ptr :=
  new_block (garbage g size).

Definition end_of_scope (p : ptr) : M unit := free p.

(** ** JNI: arrays of [char]

    Modelled from the JNI specification. A [jcharArray] is a null
    reference or the block that holds the array's elements.
    [GetCharArrayElements] fails, or pins the array and returns its own
    storage, or returns a copy; the choice is the runtime's. A failed
    acquisition returns [NULL] and changes nothing else. *)

Definition jcharArray := option nat.

Inductive acquire_choice := AcqFail | AcqDirect | AcqCopy.

Definition JNI_FALSE : Z := 0.
Definition JNI_TRUE : Z := 1.
Definition JNI_COMMIT : Z := 1.
Definition JNI_ABORT : Z := 2.

Definition array_bytes (arr : jcharArray) : M (list Z) := fun w =>
  match arr with
  | None => None
  | Some a =>
      match heap w !! a with
      | Some blk => if live blk then Some (bytes blk, w) else None
      | None => None
      end
  end.

Definition GetArrayLength (arr : jcharArray) : M Z :=
  bs ← array_bytes arr;
  ret (Z.of_nat (length bs) / sizeof_jchar).

Definition GetCharArrayElements (c : acquire_choice) (arr : jcharArray)
  : M ptr :=
  bs ← array_bytes arr;
  match c with
  | AcqFail => ret NULL
  | AcqDirect => ret arr
  | AcqCopy => new_block bs
  end.

(** Overwrite the elements of array [arr] with the bytes [bs]. *)
Definition write_back (arr : jcharArray) (bs : list Z) : M unit := fun w =>
  match arr with
  | None => None
  | Some a =>
      match heap w !! a with
      | Some blk =>
          if live blk
          then Some (tt, set_heap
                           (<[a := Block bs true (locked blk)]> (heap w)) w)
          else None
      | None => None
      end
  end.

(** Mode 0 copies the buffer back and frees it, [JNI_COMMIT] copies back
    without freeing, [JNI_ABORT] frees without copying back. When the
    buffer is the array's own storage there is nothing to copy or free. *)
Definition ReleaseCharArrayElements (arr : jcharArray) (elems : ptr)
    (mode : Z) : M unit :=
  _ ← array_bytes arr;
  bs ← array_bytes elems;
  if decide (arr = elems) then ret tt
  else
    (if mode =? JNI_ABORT then ret tt else write_back arr bs) ;;
    (if mode =? JNI_COMMIT then ret tt else free elems).

(** The elements of the array as the Java caller reads them. *)
Fixpoint decode_jchars (bs : list Z) : list Z :=
  match bs with
  | lo :: hi :: rest => Z.lor lo (Z.shiftl hi 8) :: decode_jchars rest
  | _ => []
  end.

Definition encode_jchar (c : Z) : list Z :=
  [Z.land c 255; Z.land (Z.shiftr c 8) 255].

Definition encode_jchars (cs : list Z) : list Z :=
  flat_map encode_jchar cs.

Definition java_array (w : world) (arr : jcharArray) : option (list Z) :=
  match arr with
  | None => None
  | Some a =>
      match heap w !! a with
      | Some blk => if live blk then Some (decode_jchars (bytes blk)) else None
      | None => None
      end
  end.

(** Run [m] when [p] is not [NULL]: [if (p) { m }]. *)
Definition when_nonnull (p : ptr) (m : M unit) : M unit :=
  match p with
  | Some _ => m
  | None => ret tt
  end.

Definition is_null (p : ptr) : bool :=
  match p with
  | Some _ => false
  | None => true
  end.

(** ** [secure_memzero] (lines 16-28) *)

(** [while (len--) *p++ = 0;] with [p] at offset [off] of its block. *)
Fixpoint memzero_loop (len : nat) (p : ptr) (off : Z) : M unit :=
  match len with
  | O => ret tt
  | S len' => store_byte p off 0 ;; memzero_loop len' p (off + 1)
  end.

Definition secure_memzero (p : ptr) (len : Z) : M unit :=
  if is_null p || (len =? 0) then ret tt
  else memzero_loop (Z.to_nat len) p 0.

(** ** Credential storage (lines 35-37) *)

Definition ENC_USER : list Z := [0x3B; 0x3E; 0x37; 0x33; 0x34].
Definition ENC_PASS : list Z := [0x3B; 0x3E; 0x37; 0x33; 0x34].
Definition XOR_KEY : Z := 0x5A.

(** ** [checkCredentials] (lines 52-154) *)

Record check_env := CheckEnv {
  ce_locked_mem : alloc_choice;     (* malloc(1024) *)
  ce_userChars  : acquire_choice;   (* GetCharArrayElements(juser) *)
  ce_passChars  : acquire_choice;   (* GetCharArrayElements(jpass) *)
  ce_userBytes  : alloc_choice;     (* malloc(userLen) *)
  ce_passBytes  : alloc_choice;     (* malloc(passLen) *)
  ce_stack      : nat -> Z          (* what the frame holds on entry *)
}.

(** [for (i = 0; i < len; i++) dst[i] = (unsigned char) src[i];] *)
Definition narrow_chars (dst src : ptr) (len : Z) : M unit :=
  for_loop (Z.to_nat len) 0 (fun i =>
    c ← load_jchar src i;
    store_byte dst i (to_uchar c)).

(** [for (i = 0; i < sizeof(enc); i++) dst[i] = enc[i] ^ key;] *)
Definition xor_decrypt (dst : ptr) (enc : list Z) (key : Z) : M unit :=
  for_loop (Z.to_nat (sizeof enc)) 0 (fun i =>
    e ← rodata enc i;
    store_byte dst i (to_uchar (Z.lxor e key))).

(** Lines 120-125. The second [memcmp] is the right operand of [&&]: it
    is evaluated only when the first one returned 0. *)
Definition compare_credentials (userBytes decryptedUser passBytes
    decryptedPass : ptr) (userLen passLen : Z) : M bool :=
  if (to_size_t userLen =? sizeof ENC_USER)
     && (to_size_t passLen =? sizeof ENC_PASS)
  then
    r1 ← memcmp userBytes decryptedUser (to_size_t userLen);
    if r1 =? 0
    then r2 ← memcmp passBytes decryptedPass (to_size_t passLen);
         ret (r2 =? 0)
    else ret false
  else ret false.

Definition wipe_locked_mem (locked_mem : ptr) : M unit :=
  when_nonnull locked_mem
    (secure_memzero locked_mem 1024 ;; free locked_mem).

Definition checkCredentials (env : check_env) (juser jpass : jcharArray)
    (userLen passLen : Z) : M Z :=
  (* step 1 *)
  locked_mem ← malloc (ce_locked_mem env) 1024;
  when_nonnull locked_mem (mlock locked_mem 1024) ;;
  (* step 2 *)
  userChars ← GetCharArrayElements (ce_userChars env) juser;
  passChars ← GetCharArrayElements (ce_passChars env) jpass;
  if is_null userChars || is_null passChars then
    when_nonnull userChars
      (ReleaseCharArrayElements juser userChars JNI_ABORT) ;;
    when_nonnull passChars
      (ReleaseCharArrayElements jpass passChars JNI_ABORT) ;;
    wipe_locked_mem locked_mem ;;
    ret JNI_FALSE
  else
  (* step 3 *)
  userBytes ← malloc (ce_userBytes env) (to_size_t userLen);
  passBytes ← malloc (ce_passBytes env) (to_size_t passLen);
  if is_null userBytes || is_null passBytes then
    free userBytes ;;
    free passBytes ;;
    ReleaseCharArrayElements juser userChars JNI_ABORT ;;
    ReleaseCharArrayElements jpass passChars JNI_ABORT ;;
    wipe_locked_mem locked_mem ;;
    ret JNI_FALSE
  else
  narrow_chars userBytes userChars userLen ;;
  narrow_chars passBytes passChars passLen ;;
  (* step 4 *)
  decryptedUser ← local_array (ce_stack env) (sizeof ENC_USER);
  decryptedPass ← local_array (ce_stack env) (sizeof ENC_PASS);
  xor_decrypt decryptedUser ENC_USER XOR_KEY ;;
  xor_decrypt decryptedPass ENC_PASS XOR_KEY ;;
  (* step 5 *)
  matched ← compare_credentials userBytes decryptedUser passBytes
              decryptedPass userLen passLen;
  (* step 6a *)
  secure_memzero decryptedUser (sizeof ENC_USER) ;;
  secure_memzero decryptedPass (sizeof ENC_PASS) ;;
  (* step 6b *)
  secure_memzero userBytes (to_size_t userLen) ;;
  secure_memzero passBytes (to_size_t passLen) ;;
  free userBytes ;;
  free passBytes ;;
  (* step 6c *)
  secure_memzero userChars (to_size_t (to_size_t userLen * sizeof_jchar)) ;;
  secure_memzero passChars (to_size_t (to_size_t passLen * sizeof_jchar)) ;;
  ReleaseCharArrayElements juser userChars JNI_ABORT ;;
  ReleaseCharArrayElements jpass passChars JNI_ABORT ;;
  (* step 6d *)
  wipe_locked_mem locked_mem ;;
  end_of_scope decryptedPass ;;
  end_of_scope decryptedUser ;;
  ret (if matched : bool then JNI_TRUE else JNI_FALSE).

(** ** The flag (lines 161-167) *)

Definition ENC_FLAG : list Z :=
  [0x1C; 0x16; 0x1B; 0x1D; 0x21; 0x09; 0x09; 0x09; 0x2F; 0x2A; 0x3F; 0x28;
   0x05; 0x09; 0x3F; 0x39; 0x28; 0x3F; 0x2E; 0x05; 0x1C; 0x36; 0x3B; 0x3D;
   0x27].

Definition FLAG_LEN : Z := sizeof ENC_FLAG.
Definition FLAG_KEY : Z := 0x5A.

(** ** [getFlagLength] (lines 175-180) *)

Definition getFlagLength : M Z := ret (to_jint FLAG_LEN).

(** ** [decryptFlagIntoBuffer] (lines 189-261) *)

Record decrypt_env := DecryptEnv {
  de_buffer      : acquire_choice;   (* GetCharArrayElements(jbuffer) *)
  de_lockedMem   : alloc_choice;     (* malloc(1024) *)
  de_tempDecrypt : alloc_choice;     (* malloc(FLAG_LEN) *)
  de_char_signed : bool              (* is plain char signed on this ABI *)
}.

(** [for (i = 0; i < FLAG_LEN; i++) buffer[i] = (jchar) tempDecrypt[i];] *)
Definition widen_chars (char_signed : bool) (buffer tempDecrypt : ptr)
  : M unit :=
  for_loop (Z.to_nat FLAG_LEN) 0 (fun i =>
    v ← load_byte tempDecrypt i;
    store_jchar buffer i (to_jchar (char_value char_signed v))).

Definition decryptFlagIntoBuffer (env : decrypt_env) (jbuffer : jcharArray)
  : M unit :=
  if is_null jbuffer then ret tt
  else
  buffer ← GetCharArrayElements (de_buffer env) jbuffer;
  if is_null buffer then ret tt
  else
  bufferSize ← GetArrayLength jbuffer;
  if to_size_t bufferSize <? FLAG_LEN then
    ReleaseCharArrayElements jbuffer buffer JNI_ABORT
  else
  lockedMem ← malloc (de_lockedMem env) 1024;
  when_nonnull lockedMem (mlock lockedMem 1024) ;;
  tempDecrypt ← malloc (de_tempDecrypt env) FLAG_LEN;
  if is_null tempDecrypt then
    when_nonnull lockedMem (munlock lockedMem 1024 ;; free lockedMem) ;;
    ReleaseCharArrayElements jbuffer buffer JNI_ABORT
  else
  xor_decrypt tempDecrypt ENC_FLAG FLAG_KEY ;;
  widen_chars (de_char_signed env) buffer tempDecrypt ;;
  secure_memzero tempDecrypt FLAG_LEN ;;
  free tempDecrypt ;;
  when_nonnull lockedMem
    (secure_memzero lockedMem 1024 ;;
     munlock lockedMem 1024 ;;
     free lockedMem) ;;
  ReleaseCharArrayElements jbuffer buffer 0.

(** ** [wipeFlagBuffer] (lines 269-289) *)

Definition wipeFlagBuffer (acq : acquire_choice) (jbuffer : jcharArray)
  : M unit :=
  if is_null jbuffer then ret tt
  else
  buffer ← GetCharArrayElements acq jbuffer;
  if is_null buffer then ret tt
  else
  len ← GetArrayLength jbuffer;
  secure_memzero buffer (to_size_t (to_size_t len * sizeof_jchar)) ;;
  ReleaseCharArrayElements jbuffer buffer JNI_ABORT.


(** * The vocabulary of the properties *)

(** [fill_zero o n bs]: [bs] with the [n] bytes from offset [o] zeroed. *)
Definition fill_zero (o n : nat) (bs : list Z) : list Z :=
  take o bs ++ replicate n 0 ++ drop (o + n) bs.

Definition is_jchar (c : Z) : Prop := 0 <= c < 2 ^ 16.

(** [java_chars w arr cs]: in world [w] the reference [arr] is a live
    [char[]] whose elements are [cs]. *)
Definition java_chars (w : world) (arr : jcharArray) (cs : list Z) : Prop :=
  Forall is_jchar cs /\
  exists a lk, arr = Some a /\
               heap w !! a = Some (Block (encode_jchars cs) true lk).

(** [signals e r]: the call with outcome [r] returned with the Java
    exception [e] pending, the only way a JNI function has to signal an
    error. *)
Definition signals {A} (e : string) (r : option (A * world)) : Prop :=
  exists a w', r = Some (a, w') /\ pending w' = Some e.

(** What [memcmp] returns on two byte sequences of the same length. *)
Fixpoint memcmp_bytes (l1 l2 : list Z) : Z :=
  match l1, l2 with
  | a :: l1', b :: l2' => if a =? b then memcmp_bytes l1' l2' else a - b
  | _, _ => 0
  end.

(** The stored secrets in the clear. *)
Definition stored_user : list Z := map (fun e => Z.lxor e XOR_KEY) ENC_USER.
Definition stored_pass : list Z := map (fun e => Z.lxor e XOR_KEY) ENC_PASS.
Definition flag_plaintext : list Z :=
  map (fun e => Z.lxor e FLAG_KEY) ENC_FLAG.

Definition acquired (c : acquire_choice) : bool :=
  match c with AcqFail => false | _ => true end.

Definition allocated (c : alloc_choice) : bool :=
  match c with Some _ => true | None => false end.

(** When [checkCredentials] says yes: everything it asked the runtime and
    the allocator for was granted, both lengths are 5, and the low bytes
    of the first five characters of each array are the stored secret. *)
Definition credentials_accepted (env : check_env) (user pass : list Z)
    (userLen passLen : Z) : bool :=
  acquired (ce_userChars env) && acquired (ce_passChars env)
  && allocated (ce_userBytes env) && allocated (ce_passBytes env)
  && (userLen =? 5) && (passLen =? 5)
  && bool_decide (map to_uchar (take 5 user) = stored_user)
  && bool_decide (map to_uchar (take 5 pass) = stored_pass).

(** The calls of [memcmp] that [compare_credentials] makes. *)
Definition compare_trace (ub du pb dp : nat) (ubs dus : list Z)
    (userLen passLen : Z) : list event :=
  if (userLen =? 5) && (passLen =? 5)
  then EvMemcmp ub du userLen
       :: (if bool_decide (ubs = dus) then [EvMemcmp pb dp passLen] else [])
  else [].

(** The blocks allocated since [before] that [after] holds released with
    something other than zeros in them. *)
Definition all_zero (bs : list Z) : bool := forallb (Z.eqb 0) bs.

Definition released_unwiped (before after : world) : list nat :=
  map fst
    (List.filter
       (fun ib : nat * block =>
          negb (live (snd ib)) && negb (all_zero (bytes (snd ib))))
       (drop (length (heap before))
             (combine (seq 0 (length (heap after))) (heap after)))).

(** ** Vocabulary of the further properties *)

Definition pinned (c : acquire_choice) : bool :=
  match c with AcqDirect => true | _ => false end.

(** Everything [checkCredentials] asks for is granted. *)
Definition granted (env : check_env) : bool :=
  acquired (ce_userChars env) && acquired (ce_passChars env)
  && allocated (ce_userBytes env) && allocated (ce_passBytes env).

(** [decryptFlagIntoBuffer] gets as far as writing the flag. *)
Definition filled (env : decrypt_env) (cs : list Z) : bool :=
  acquired (de_buffer env) && allocated (de_tempDecrypt env)
  && (25 <=? Z.of_nat (length cs)).

(** [cs] with its first [n] elements zeroed. *)
Definition zero_prefix (n : Z) (cs : list Z) : list Z :=
  replicate (Z.to_nat n) 0 ++ drop (Z.to_nat n) cs.

(** A call of [checkCredentials] on two live arrays with lengths that do
    not exceed them. *)
Definition well_formed_call (w : world) (au ap : nat) (user pass : list Z)
    (userLen passLen : Z) : Prop :=
  java_chars w (Some au) user /\ java_chars w (Some ap) pass /\
  0 <= userLen <= Z.of_nat (length user) /\
  0 <= passLen <= Z.of_nat (length pass) /\
  Z.of_nat (length user) < 2 ^ 31 /\ Z.of_nat (length pass) < 2 ^ 31.

(** Lines 58-101 of [checkCredentials]: everything up to the point where
    the conversion loops of step 3 start, the two early returns included,
    with what follows as the continuation [k]. *)
Definition check_until_conversion (env : check_env) (juser jpass : jcharArray)
    (userLen passLen : Z) (k : ptr -> ptr -> ptr -> ptr -> ptr -> M Z)
  : M Z :=
  locked_mem ← malloc (ce_locked_mem env) 1024;
  when_nonnull locked_mem (mlock locked_mem 1024) ;;
  userChars ← GetCharArrayElements (ce_userChars env) juser;
  passChars ← GetCharArrayElements (ce_passChars env) jpass;
  if is_null userChars || is_null passChars then
    when_nonnull userChars
      (ReleaseCharArrayElements juser userChars JNI_ABORT) ;;
    when_nonnull passChars
      (ReleaseCharArrayElements jpass passChars JNI_ABORT) ;;
    wipe_locked_mem locked_mem ;;
    ret JNI_FALSE
  else
  userBytes ← malloc (ce_userBytes env) (to_size_t userLen);
  passBytes ← malloc (ce_passBytes env) (to_size_t passLen);
  if is_null userBytes || is_null passBytes then
    free userBytes ;;
    free passBytes ;;
    ReleaseCharArrayElements juser userChars JNI_ABORT ;;
    ReleaseCharArrayElements jpass passChars JNI_ABORT ;;
    wipe_locked_mem locked_mem ;;
    ret JNI_FALSE
  else
  k locked_mem userChars passChars userBytes passBytes.

(** ** Concrete worlds for the examples *)

(** Fresh memory that holds the byte 0xAA everywhere. *)
Definition stale : nat -> Z := fun _ => 0xAA.

Definition one_array (cs : list Z) : world :=
  World [Block (encode_jchars cs) true false] None [].

Definition two_arrays (user pass : list Z) : world :=
  World [Block (encode_jchars user) true false;
         Block (encode_jchars pass) true false] None [].

(** Every request granted; the runtime hands out copies. *)
Definition all_granted : check_env :=
  CheckEnv (Some stale) AcqCopy AcqCopy (Some stale) (Some stale) stale.

Definition admin : list Z := [0x61; 0x64; 0x6D; 0x69; 0x6E].

(** * Running the primitives

    Equations that say what each primitive and each loop does to a world
    whose relevant block is known. *)

Lemma run_bind {A B} (m : M A) (k : A -> M B) w :
  (m ≫= k) w = match m w with Some (a, w') => k a w' | None => None end.
Proof. reflexivity. Qed.

Lemma run_ret {A} (a : A) w : ret a w = Some (a, w).
Proof. reflexivity. Qed.

Lemma load_byte_run h p t b bs lk i v :
  h !! b = Some (Block bs true lk) ->
  bs !! i = Some v ->
  load_byte (Some b) (Z.of_nat i) (World h p t) = Some (v, World h p t).
Proof.
  intros Hb Hi. unfold load_byte. cbn [heap]. rewrite Hb. cbn [live bytes].
  replace (0 <=? Z.of_nat i) with true by (symmetry; apply Z.leb_le; lia).
  rewrite Nat2Z.id, Hi. reflexivity.
Qed.

Lemma store_byte_run h p t b bs lk i v :
  h !! b = Some (Block bs true lk) ->
  (i < length bs)%nat ->
  store_byte (Some b) (Z.of_nat i) v (World h p t)
  = Some (tt, World (<[b := Block (<[i := v]> bs) true lk]> h) p t).
Proof.
  intros Hb Hi. unfold store_byte. cbn [heap]. rewrite Hb.
  cbn [live bytes locked].
  replace (0 <=? Z.of_nat i) with true by (symmetry; apply Z.leb_le; lia).
  replace (Z.of_nat i <? Z.of_nat (length bs)) with true
    by (symmetry; apply Z.ltb_lt; lia).
  rewrite Nat2Z.id. reflexivity.
Qed.

Lemma fill_zero_none o bs : fill_zero o 0 bs = bs.
Proof.
  unfold fill_zero. rewrite Nat.add_0_r. cbn [replicate app].
  apply take_drop.
Qed.

Lemma fill_zero_step o n bs :
  (o < length bs)%nat ->
  fill_zero (S o) n (<[o := 0]> bs) = fill_zero o (S n) bs.
Proof.
  intros Ho. unfold fill_zero.
  rewrite take_insert_lt by lia.
  rewrite drop_insert_lt by lia.
  rewrite (take_S_r bs o (bs !!! o)).
  2:{ apply list_lookup_lookup_total_lt. lia. }
  rewrite insert_app_r_alt by (rewrite length_take; lia).
  rewrite length_take, Nat.min_l by lia. rewrite Nat.sub_diag.
  cbn [insert list_insert replicate]. rewrite <- app_assoc. cbn [app].
  replace (S o + n)%nat with (o + S n)%nat by lia. reflexivity.
Qed.

Lemma length_fill_zero o n bs :
  length (fill_zero o n bs)
  = (Nat.min o (length bs) + n + (length bs - (o + n)))%nat.
Proof.
  unfold fill_zero.
  rewrite !length_app, length_take, length_replicate, length_drop. lia.
Qed.

Lemma fill_zero_lookup o n bs i :
  (o + n <= length bs)%nat -> (o <= i < o + n)%nat ->
  fill_zero o n bs !! i = Some 0.
Proof.
  intros Hlen Hi. unfold fill_zero.
  rewrite lookup_app_r by (rewrite length_take; lia).
  rewrite length_take, Nat.min_l by lia.
  rewrite lookup_app_l by (rewrite length_replicate; lia).
  apply lookup_replicate_2. lia.
Qed.

Lemma memzero_loop_run p t b lk n : forall o bs h,
  h !! b = Some (Block bs true lk) ->
  (o + n <= length bs)%nat ->
  memzero_loop n (Some b) (Z.of_nat o) (World h p t)
  = Some (tt, World (<[b := Block (fill_zero o n bs) true lk]> h) p t).
Proof.
  induction n as [|n IH]; intros o bs h Hb Hlen.
  - cbn [memzero_loop]. rewrite run_ret, fill_zero_none.
    rewrite list_insert_id by exact Hb. reflexivity.
  - cbn [memzero_loop]. rewrite run_bind.
    rewrite (store_byte_run _ _ _ _ _ _ _ _ Hb) by lia.
    replace (Z.of_nat o + 1) with (Z.of_nat (S o)) by lia.
    rewrite (IH (S o) (<[o := 0]> bs)).
    + rewrite list_insert_insert_eq, fill_zero_step by lia. reflexivity.
    + apply list_lookup_insert_eq. eapply lookup_lt_Some, Hb.
    + rewrite length_insert. lia.
Qed.

Lemma secure_memzero_run h p t b bs lk n :
  h !! b = Some (Block bs true lk) ->
  0 <= n <= Z.of_nat (length bs) ->
  secure_memzero (Some b) n (World h p t)
  = Some (tt, World (<[b := Block (fill_zero 0 (Z.to_nat n) bs) true lk]> h)
                    p t).
Proof.
  intros Hb Hn. unfold secure_memzero. cbn [is_null orb].
  destruct (n =? 0) eqn:E.
  - apply Z.eqb_eq in E. subst n. rewrite run_ret.
    change (Z.to_nat 0) with 0%nat. rewrite fill_zero_none.
    rewrite list_insert_id by exact Hb. reflexivity.
  - apply (memzero_loop_run p t b lk (Z.to_nat n) 0%nat bs h Hb). lia.
Qed.

Lemma secure_memzero_null n w : secure_memzero NULL n w = Some (tt, w).
Proof. reflexivity. Qed.

Lemma array_bytes_run h p t a bs lk :
  h !! a = Some (Block bs true lk) ->
  array_bytes (Some a) (World h p t) = Some (bs, World h p t).
Proof. intros Ha. unfold array_bytes. cbn [heap]. rewrite Ha. reflexivity. Qed.

Lemma new_block_run h p t bs :
  new_block bs (World h p t)
  = Some (Some (length h), World (h ++ [Block bs true false]) p t).
Proof. reflexivity. Qed.

Lemma free_run h p t b bs lk :
  h !! b = Some (Block bs true lk) ->
  free (Some b) (World h p t)
  = Some (tt, World (<[b := Block bs false lk]> h) p t).
Proof. intros Hb. unfold free. cbn [heap]. rewrite Hb. reflexivity. Qed.

Lemma set_locked_run l h p t b bs lk :
  h !! b = Some (Block bs true lk) ->
  set_locked l (Some b) (World h p t)
  = Some (tt, World (<[b := Block bs true l]> h) p t).
Proof.
  intros Hb. unfold set_locked. cbn [heap]. rewrite Hb. reflexivity.
Qed.

Lemma write_back_run h p t a bs bs' lk :
  h !! a = Some (Block bs true lk) ->
  write_back (Some a) bs' (World h p t)
  = Some (tt, World (<[a := Block bs' true lk]> h) p t).
Proof.
  intros Hb. unfold write_back. cbn [heap]. rewrite Hb. reflexivity.
Qed.

Lemma rodata_run table i v w :
  table !! i = Some v -> rodata table (Z.of_nat i) w = Some (v, w).
Proof.
  intros Hi. unfold rodata.
  replace (0 <=? Z.of_nat i) with true by (symmetry; apply Z.leb_le; lia).
  rewrite Nat2Z.id, Hi. reflexivity.
Qed.

(** *** Loops *)

(** A loop whose [k]th iteration takes world [I k] to world [I (S k)]
    takes [I 0] to [I n]. *)
Lemma for_loop_from (I : nat -> world) body n : forall o,
  (forall k, (o <= k < o + n)%nat ->
             body (Z.of_nat k) (I k) = Some (tt, I (S k))) ->
  for_loop n (Z.of_nat o) body (I o) = Some (tt, I (o + n)%nat).
Proof.
  induction n as [|n IH]; intros o Hstep.
  - cbn [for_loop]. rewrite Nat.add_0_r. reflexivity.
  - cbn [for_loop]. rewrite run_bind, Hstep by lia.
    replace (Z.of_nat o + 1) with (Z.of_nat (S o)) by lia.
    rewrite IH by (intros k Hk; apply Hstep; lia).
    do 3 f_equal. lia.
Qed.

Lemma for_loop_run (I : nat -> world) body n :
  (forall k, (k < n)%nat -> body (Z.of_nat k) (I k) = Some (tt, I (S k))) ->
  for_loop n 0 body (I 0%nat) = Some (tt, I n).
Proof.
  intros Hstep. apply (for_loop_from I body n 0%nat).
  intros k Hk. apply Hstep. lia.
Qed.

(** Overwriting position [k] of a buffer whose first [k] bytes have been
    produced already. *)
Lemma insert_after_prefix (pre old : list Z) k v :
  length pre = k -> (k < length old)%nat ->
  <[k := v]> (pre ++ drop k old) = (pre ++ [v]) ++ drop (S k) old.
Proof.
  intros Hpre Hk. rewrite insert_app_r_alt by lia.
  rewrite Hpre, Nat.sub_diag, <- app_assoc. f_equal.
  destruct (drop k old) as [|x rest] eqn:E.
  - apply (f_equal length) in E. rewrite length_drop in E. cbn in E. lia.
  - cbn. f_equal.
    replace (S k) with (k + 1)%nat by lia.
    rewrite <- (drop_drop old 1 k), E. reflexivity.
Qed.

(** *** Bytes and characters *)

Lemma jchar_recompose c :
  Z.lor (Z.land c 255) (Z.shiftl (Z.land (Z.shiftr c 8) 255) 8)
  = c mod 2 ^ 16.
Proof.
  change 255 with (Z.ones 8). rewrite !Z.land_ones by lia.
  rewrite Z.shiftr_div_pow2, Z.shiftl_mul_pow2 by lia.
  rewrite <- Z.lxor_lor.
  2:{ apply Z.bits_inj'. intros n Hn. rewrite Z.land_spec, Z.bits_0.
      destruct (Z.lt_ge_cases n 8).
      - rewrite (Z.mul_pow2_bits_low _ 8 n) by lia.
        apply andb_false_r.
      - rewrite Z.mod_pow2_bits_high by lia. reflexivity. }
  apply Z.bits_inj'. intros n Hn.
  rewrite Z.lxor_spec.
  destruct (Z.lt_ge_cases n 8).
  - rewrite (Z.mul_pow2_bits_low _ 8 n) by lia.
    rewrite !Z.mod_pow2_bits_low by lia. apply xorb_false_r.
  - rewrite (Z.mod_pow2_bits_high c 8 n) by lia. cbn [xorb].
    rewrite Z.mul_pow2_bits by lia.
    destruct (Z.lt_ge_cases n 16).
    + rewrite !Z.mod_pow2_bits_low by lia.
      rewrite Z.div_pow2_bits by lia. f_equal. lia.
    + rewrite !Z.mod_pow2_bits_high by lia. reflexivity.
Qed.

Lemma to_uchar_to_jchar c : to_uchar (to_jchar c) = to_uchar c.
Proof.
  unfold to_uchar, to_jchar. change 255 with (Z.ones 8).
  rewrite !Z.land_ones by lia.
  apply Z.mod_mod_divide. exists (2 ^ 8). reflexivity.
Qed.

Lemma length_encode_jchars cs :
  length (encode_jchars cs) = (2 * length cs)%nat.
Proof.
  unfold encode_jchars. induction cs as [|c cs IH]; [reflexivity|].
  cbn [flat_map encode_jchar app length] in *. lia.
Qed.

Lemma encode_jchars_app cs1 cs2 :
  encode_jchars (cs1 ++ cs2) = encode_jchars cs1 ++ encode_jchars cs2.
Proof. unfold encode_jchars. apply flat_map_app. Qed.

Lemma drop_encode_jchars k cs :
  drop (2 * k) (encode_jchars cs) = encode_jchars (drop k cs).
Proof.
  revert cs. induction k as [|k IH]; intros cs; [reflexivity|].
  destruct cs as [|c cs]; [reflexivity|].
  replace (2 * S k)%nat with (S (S (2 * k))) by lia. cbn [drop encode_jchars flat_map encode_jchar app].
  apply IH.
Qed.

Lemma lookup_encode_lo cs k c :
  cs !! k = Some c -> encode_jchars cs !! (2 * k)%nat = Some (Z.land c 255).
Proof.
  revert k. induction cs as [|c0 cs IH]; intros k Hk; [discriminate|].
  destruct k as [|k].
  - injection Hk as ->. reflexivity.
  - replace (2 * S k)%nat with (S (S (2 * k))) by lia. cbn. apply IH, Hk.
Qed.

Lemma lookup_encode_hi cs k c :
  cs !! k = Some c ->
  encode_jchars cs !! (2 * k + 1)%nat = Some (Z.land (Z.shiftr c 8) 255).
Proof.
  revert k. induction cs as [|c0 cs IH]; intros k Hk; [discriminate|].
  destruct k as [|k].
  - injection Hk as ->. reflexivity.
  - replace (2 * S k + 1)%nat with (S (S (2 * k + 1))) by lia. cbn.
    apply IH, Hk.
Qed.

Lemma decode_encode_jchars cs :
  decode_jchars (encode_jchars cs) = map to_jchar cs.
Proof.
  induction cs as [|c cs IH]; [reflexivity|].
  cbn [encode_jchars flat_map encode_jchar app decode_jchars map].
  rewrite jchar_recompose. f_equal. exact IH.
Qed.

Lemma map_to_jchar_id cs : Forall is_jchar cs -> map to_jchar cs = cs.
Proof.
  induction 1 as [|c cs Hc _ IH]; [reflexivity|].
  cbn [map]. rewrite IH. f_equal. unfold to_jchar. apply Z.mod_small, Hc.
Qed.

Lemma load_jchar_run h p t b cs lk k c :
  h !! b = Some (Block (encode_jchars cs) true lk) ->
  cs !! k = Some c ->
  load_jchar (Some b) (Z.of_nat k) (World h p t)
  = Some (to_jchar c, World h p t).
Proof.
  intros Hb Hk. unfold load_jchar.
  replace (2 * Z.of_nat k + 1) with (Z.of_nat (2 * k + 1)) by lia.
  replace (2 * Z.of_nat k) with (Z.of_nat (2 * k)) by lia.
  rewrite run_bind, (load_byte_run _ _ _ _ _ _ _ _ Hb (lookup_encode_lo _ _ _ Hk)).
  rewrite run_bind, (load_byte_run _ _ _ _ _ _ _ _ Hb (lookup_encode_hi _ _ _ Hk)).
  rewrite run_ret, jchar_recompose. reflexivity.
Qed.

(** *** The loops of the entry points *)

Lemma narrow_chars_run h p t dst src dbs dlk cs slk len :
  h !! dst = Some (Block dbs true dlk) ->
  h !! src = Some (Block (encode_jchars cs) true slk) ->
  dst <> src ->
  (Z.to_nat len <= length cs)%nat ->
  (Z.to_nat len <= length dbs)%nat ->
  narrow_chars (Some dst) (Some src) len (World h p t)
  = Some (tt, World (<[dst := Block (map to_uchar (take (Z.to_nat len) cs)
                                     ++ drop (Z.to_nat len) dbs) true dlk]> h)
                    p t).
Proof.
  intros Hdst Hsrc Hne Hcs Hdbs. unfold narrow_chars.
  set (I := fun k => World (<[dst := Block (map to_uchar (take k cs)
                                            ++ drop k dbs) true dlk]> h) p t).
  assert (H0 : World h p t = I 0%nat).
  { unfold I. cbn [take map app drop].
    rewrite list_insert_id by exact Hdst. reflexivity. }
  rewrite H0. apply (for_loop_run I). intros k Hk. unfold I.
  destruct (lookup_lt_is_Some_2 cs k ltac:(lia)) as [c Hc].
  rewrite run_bind.
  erewrite load_jchar_run;
    [ | rewrite list_lookup_insert_ne by exact Hne; exact Hsrc | exact Hc ].
  erewrite store_byte_run;
    [ | apply list_lookup_insert_eq; eapply lookup_lt_Some, Hdst
      | rewrite length_app, length_map, length_take, length_drop; lia ].
  rewrite list_insert_insert_eq.
  rewrite insert_after_prefix
    by (rewrite ?length_map, ?length_take; lia).
  rewrite (take_S_r cs k c Hc), map_app, to_uchar_to_jchar. reflexivity.
Qed.

Lemma xor_decrypt_run h p t dst dbs dlk enc key :
  h !! dst = Some (Block dbs true dlk) ->
  (length enc <= length dbs)%nat ->
  xor_decrypt (Some dst) enc key (World h p t)
  = Some (tt, World (<[dst := Block (map (fun e => to_uchar (Z.lxor e key)) enc
                                     ++ drop (length enc) dbs) true dlk]> h)
                    p t).
Proof.
  intros Hdst Hlen. unfold xor_decrypt, sizeof. rewrite Nat2Z.id.
  set (f := fun e => to_uchar (Z.lxor e key)).
  set (I := fun k => World (<[dst := Block (map f (take k enc)
                                            ++ drop k dbs) true dlk]> h) p t).
  assert (H0 : World h p t = I 0%nat).
  { unfold I. cbn [take map app drop].
    rewrite list_insert_id by exact Hdst. reflexivity. }
  assert (Hn : I (length enc) = World (<[dst := Block (map f enc
                 ++ drop (length enc) dbs) true dlk]> h) p t).
  { unfold I. rewrite firstn_all. reflexivity. }
  rewrite H0, <- Hn. apply (for_loop_run I). intros k Hk. unfold I.
  destruct (lookup_lt_is_Some_2 enc k ltac:(lia)) as [e He].
  rewrite run_bind, (rodata_run _ _ _ _ He).
  erewrite store_byte_run;
    [ | apply list_lookup_insert_eq; eapply lookup_lt_Some, Hdst
      | rewrite length_app, length_map, length_take, length_drop; lia ].
  rewrite list_insert_insert_eq.
  rewrite insert_after_prefix
    by (rewrite ?length_map, ?length_take; lia).
  rewrite (take_S_r enc k e He), map_app. reflexivity.
Qed.

Lemma widen_loop_run sg h p t buf bbs blk tmp tbs tlk n :
  h !! buf = Some (Block bbs true blk) ->
  h !! tmp = Some (Block tbs true tlk) ->
  buf <> tmp ->
  (n <= length tbs)%nat ->
  (2 * n <= length bbs)%nat ->
  for_loop n 0 (fun i =>
      v ← load_byte (Some tmp) i;
      store_jchar (Some buf) i (to_jchar (char_value sg v))) (World h p t)
  = Some (tt, World (<[buf := Block (encode_jchars
                                       (map (fun v => to_jchar (char_value sg v))
                                            (take n tbs))
                                     ++ drop (2 * n) bbs) true blk]> h) p t).
Proof.
  intros Hbuf Htmp Hne Htbs Hbbs.
  set (f := fun v => to_jchar (char_value sg v)).
  set (I := fun k => World (<[buf := Block (encode_jchars (map f (take k tbs))
                                            ++ drop (2 * k) bbs) true blk]> h)
                           p t).
  assert (H0 : World h p t = I 0%nat).
  { unfold I. cbn [take map encode_jchars flat_map app drop Nat.mul].
    rewrite list_insert_id by exact Hbuf. reflexivity. }
  rewrite H0. apply (for_loop_run I). intros k Hk. unfold I.
  destruct (lookup_lt_is_Some_2 tbs k ltac:(lia)) as [v Hv].
  rewrite run_bind.
  erewrite load_byte_run;
    [ | rewrite list_lookup_insert_ne by exact Hne; exact Htmp | exact Hv ].
  unfold store_jchar.
  replace (2 * Z.of_nat k + 1) with (Z.of_nat (S (2 * k))) by lia.
  replace (2 * Z.of_nat k) with (Z.of_nat (2 * k)) by lia.
  assert (Hpre : length (encode_jchars (map f (take k tbs))) = (2 * k)%nat).
  { rewrite length_encode_jchars, length_map, length_take. lia. }
  rewrite run_bind.
  erewrite store_byte_run;
    [ | apply list_lookup_insert_eq; eapply lookup_lt_Some, Hbuf
      | rewrite length_app, Hpre, length_drop; lia ].
  rewrite list_insert_insert_eq.
  rewrite insert_after_prefix by (exact Hpre || lia).
  erewrite store_byte_run;
    [ | apply list_lookup_insert_eq; eapply lookup_lt_Some, Hbuf
      | rewrite !length_app, Hpre, length_drop; cbn [length]; lia ].
  rewrite list_insert_insert_eq.
  rewrite insert_after_prefix
    by (rewrite ?length_app, ?Hpre; cbn [length]; lia).
  rewrite (take_S_r tbs k v Hv), map_app, encode_jchars_app.
  rewrite <- !app_assoc.
  replace (2 * S k)%nat with (S (S (2 * k))) by lia. reflexivity.
Qed.

Lemma memcmp_bytes_zero l1 : forall l2,
  length l1 = length l2 ->
  (memcmp_bytes l1 l2 =? 0) = bool_decide (l1 = l2).
Proof.
  induction l1 as [|a l1 IH]; intros [|b l2] Hlen; try discriminate.
  - reflexivity.
  - cbn [memcmp_bytes]. destruct (a =? b) eqn:E.
    + apply Z.eqb_eq in E. subst b. rewrite IH by (cbn in Hlen; lia).
      apply bool_decide_ext. split; [intros ->; reflexivity | congruence].
    + apply Z.eqb_neq in E.
      rewrite bool_decide_eq_false_2 by congruence.
      apply Z.eqb_neq. lia.
Qed.

Lemma memcmp_loop_run h p t b1 bs1 lk1 b2 bs2 lk2 n : forall o,
  h !! b1 = Some (Block bs1 true lk1) ->
  h !! b2 = Some (Block bs2 true lk2) ->
  (o + n <= length bs1)%nat ->
  (o + n <= length bs2)%nat ->
  memcmp_loop n (Some b1) (Some b2) (Z.of_nat o) (World h p t)
  = Some (memcmp_bytes (take n (drop o bs1)) (take n (drop o bs2)),
          World h p t).
Proof.
  induction n as [|n IH]; intros o H1 H2 Hl1 Hl2; [reflexivity|].
  destruct (lookup_lt_is_Some_2 bs1 o ltac:(lia)) as [x Hx].
  destruct (lookup_lt_is_Some_2 bs2 o ltac:(lia)) as [y Hy].
  cbn [memcmp_loop].
  rewrite run_bind, (load_byte_run _ _ _ _ _ _ _ _ H1 Hx).
  rewrite run_bind, (load_byte_run _ _ _ _ _ _ _ _ H2 Hy).
  rewrite (drop_S _ _ _ Hx), (drop_S _ _ _ Hy).
  cbn [take memcmp_bytes].
  destruct (x =? y); [|reflexivity].
  replace (Z.of_nat o + 1) with (Z.of_nat (S o)) by lia.
  apply IH; auto; lia.
Qed.

Lemma memcmp_run h p t b1 bs1 lk1 b2 bs2 lk2 n :
  h !! b1 = Some (Block bs1 true lk1) ->
  h !! b2 = Some (Block bs2 true lk2) ->
  (Z.to_nat n <= length bs1)%nat ->
  (Z.to_nat n <= length bs2)%nat ->
  memcmp (Some b1) (Some b2) n (World h p t)
  = Some (memcmp_bytes (take (Z.to_nat n) bs1) (take (Z.to_nat n) bs2),
          World h p (t ++ [EvMemcmp b1 b2 n])).
Proof.
  intros H1 H2 Hl1 Hl2. unfold memcmp. rewrite run_bind. unfold log.
  cbn [heap pending trace].
  apply (memcmp_loop_run _ _ _ _ _ _ _ _ _ _ 0%nat H1 H2); lia.
Qed.

(** *** JNI array access *)

Lemma GetArrayLength_run h p t a bs lk :
  h !! a = Some (Block bs true lk) ->
  GetArrayLength (Some a) (World h p t)
  = Some (Z.of_nat (length bs) / sizeof_jchar, World h p t).
Proof.
  intros Ha. unfold GetArrayLength.
  rewrite run_bind, (array_bytes_run _ _ _ _ _ _ Ha). reflexivity.
Qed.

Lemma GetCharArrayElements_run c h p t a bs lk :
  h !! a = Some (Block bs true lk) ->
  GetCharArrayElements c (Some a) (World h p t)
  = Some (match c with
          | AcqFail => (NULL, World h p t)
          | AcqDirect => (Some a, World h p t)
          | AcqCopy => (Some (length h),
                        World (h ++ [Block bs true false]) p t)
          end).
Proof.
  intros Ha. unfold GetCharArrayElements.
  rewrite run_bind, (array_bytes_run _ _ _ _ _ _ Ha).
  destruct c; reflexivity.
Qed.

Lemma Release_pinned_run mode h p t a bs lk :
  h !! a = Some (Block bs true lk) ->
  ReleaseCharArrayElements (Some a) (Some a) mode (World h p t)
  = Some (tt, World h p t).
Proof.
  intros Ha. unfold ReleaseCharArrayElements.
  rewrite run_bind, (array_bytes_run _ _ _ _ _ _ Ha).
  rewrite run_bind, (array_bytes_run _ _ _ _ _ _ Ha).
  rewrite decide_True by reflexivity. reflexivity.
Qed.

Lemma Release_abort_run h p t a bs lk e ebs elk :
  h !! a = Some (Block bs true lk) ->
  h !! e = Some (Block ebs true elk) ->
  a <> e ->
  ReleaseCharArrayElements (Some a) (Some e) JNI_ABORT (World h p t)
  = Some (tt, World (<[e := Block ebs false elk]> h) p t).
Proof.
  intros Ha He Hne. unfold ReleaseCharArrayElements.
  rewrite run_bind, (array_bytes_run _ _ _ _ _ _ Ha).
  rewrite run_bind, (array_bytes_run _ _ _ _ _ _ He).
  rewrite decide_False by congruence.
  cbn [Z.eqb JNI_ABORT JNI_COMMIT Pos.eqb].
  rewrite run_bind, run_ret. apply (free_run _ _ _ _ _ _ He).
Qed.

Lemma Release_copy_back_run h p t a bs lk e ebs elk :
  h !! a = Some (Block bs true lk) ->
  h !! e = Some (Block ebs true elk) ->
  a <> e ->
  ReleaseCharArrayElements (Some a) (Some e) 0 (World h p t)
  = Some (tt, World (<[e := Block ebs false elk]>
                       (<[a := Block ebs true lk]> h)) p t).
Proof.
  intros Ha He Hne. unfold ReleaseCharArrayElements.
  rewrite run_bind, (array_bytes_run _ _ _ _ _ _ Ha).
  rewrite run_bind, (array_bytes_run _ _ _ _ _ _ He).
  rewrite decide_False by congruence.
  cbn [Z.eqb JNI_ABORT JNI_COMMIT Pos.eqb].
  rewrite run_bind, (write_back_run _ _ _ _ _ _ _ Ha).
  apply (free_run _ _ _ _ _ elk). rewrite list_lookup_insert_ne by exact Hne. exact He.
Qed.

Lemma lookup_fresh (B N : list block) n k :
  length B = n -> (B ++ N) !! (n + k)%nat = N !! k.
Proof. intros <-. rewrite lookup_app_r by lia. f_equal. lia. Qed.

Lemma insert_fresh (B N : list block) n k x :
  length B = n -> <[(n + k)%nat := x]> (B ++ N) = B ++ <[k := x]> N.
Proof. intros <-. apply insert_app_r. Qed.

Lemma length_garbage g n : length (garbage g n) = Z.to_nat n.
Proof. unfold garbage. rewrite length_map, length_seq. reflexivity. Qed.

Lemma fill_zero_all bs : fill_zero 0 (length bs) bs = replicate (length bs) 0.
Proof.
  unfold fill_zero. cbn [take app Nat.add].
  rewrite drop_all. apply app_nil_r.
Qed.

Lemma encode_jchars_zero n :
  encode_jchars (replicate n 0) = replicate (2 * n) 0.
Proof.
  induction n as [|n IH]; [reflexivity|].
  replace (2 * S n)%nat with (S (S (2 * n))) by lia.
  cbn [replicate encode_jchars flat_map encode_jchar app].
  f_equal. f_equal. exact IH.
Qed.

(** The size [length * sizeof(jchar)] computed in [size_t]. *)
Lemma size_in_bytes n :
  0 <= n < 2 ^ 31 ->
  to_size_t (to_size_t n * sizeof_jchar) = 2 * n.
Proof.
  intros Hn. unfold to_size_t, sizeof_jchar.
  rewrite (Z.mod_small n) by lia. rewrite Z.mod_small by lia. lia.
Qed.

Lemma java_chars_java_array w arr cs :
  java_chars w arr cs -> java_array w arr = Some cs.
Proof.
  intros [Hcs (a & lk & -> & Ha)]. unfold java_array. rewrite Ha.
  cbn [live bytes]. rewrite decode_encode_jchars, map_to_jchar_id by exact Hcs.
  reflexivity.
Qed.

(** *** Finding blocks in a heap of the form [old ++ fresh] *)

Ltac len_side :=
  rewrite ?length_insert, ?length_app; cbn [length];
  first [reflexivity | lia | eassumption].

Ltac heap_find :=
  repeat first
    [ rewrite lookup_fresh by len_side
    | rewrite lookup_app_l by len_side
    | rewrite list_lookup_insert_eq by len_side
    | rewrite list_lookup_insert_ne by (first [lia | congruence]) ].

Ltac heap_lookup := heap_find; first [ reflexivity | eassumption ].

Ltac heap_norm :=
  repeat first
    [ rewrite insert_fresh by len_side
    | rewrite insert_app_l by len_side
    | rewrite <- app_assoc ];
  cbn [insert list_insert app].

Ltac len_bound :=
  rewrite ?length_fill_zero, ?length_app, ?length_map, ?length_take,
    ?length_drop, ?length_garbage, ?length_encode_jchars;
  cbn [length ENC_USER ENC_PASS ENC_FLAG]; lia.

Ltac side := first [ heap_lookup | solve [len_bound] | lia | congruence ].

(** *** Symbolic execution, one call at a time *)

Ltac pure := cbv beta iota; cbn [when_nonnull is_null NULL orb andb].

Ltac run lem := rewrite ?run_bind; erewrite lem by side; pure; heap_norm.

Ltac skip := rewrite ?run_bind, run_ret; pure.

Ltac run_alloc :=
  rewrite ?run_bind, new_block_run; pure;
  rewrite ?length_app; cbn [length]; heap_norm.

Ltac run_alloc0 h :=
  rewrite ?run_bind, new_block_run; pure;
  rewrite <- (Nat.add_0_r (length h)).

(** *** The comparison and the result of [checkCredentials] *)

Lemma compare_credentials_run h p t ub ubs ulk du dus dlk pb pbs plk
    dp dps dplk userLen passLen :
  h !! ub = Some (Block ubs true ulk) ->
  h !! du = Some (Block dus true dlk) ->
  h !! pb = Some (Block pbs true plk) ->
  h !! dp = Some (Block dps true dplk) ->
  0 <= userLen < 2 ^ 31 -> 0 <= passLen < 2 ^ 31 ->
  length ubs = Z.to_nat userLen -> length dus = 5%nat ->
  length pbs = Z.to_nat passLen -> length dps = 5%nat ->
  compare_credentials (Some ub) (Some du) (Some pb) (Some dp)
    userLen passLen (World h p t)
  = Some ((userLen =? 5) && (passLen =? 5)
          && bool_decide (ubs = dus) && bool_decide (pbs = dps),
          World h p (t ++ compare_trace ub du pb dp ubs dus userLen passLen)).
Proof.
  intros Hub Hdu Hpb Hdp Hu Hp Lub Ldu Lpb Ldp.
  unfold compare_credentials, compare_trace, to_size_t.
  rewrite !Z.mod_small by lia.
  change (sizeof ENC_USER) with 5. change (sizeof ENC_PASS) with 5.
  destruct (userLen =? 5) eqn:Eu; cbn [andb];
    [|rewrite run_ret, app_nil_r; reflexivity].
  destruct (passLen =? 5) eqn:Ep; cbn [andb];
    [|rewrite run_ret, app_nil_r; reflexivity].
  apply Z.eqb_eq in Eu, Ep. subst userLen passLen.
  rewrite run_bind.
  rewrite (memcmp_run _ _ _ _ _ _ _ _ _ _ Hub Hdu) by lia.
  rewrite !take_ge by lia.
  rewrite memcmp_bytes_zero by lia.
  destruct (bool_decide (ubs = dus)); cbn [andb].
  - rewrite run_bind.
    erewrite memcmp_run; [ | heap_lookup | heap_lookup | lia | lia ].
    rewrite !take_ge by lia.
    rewrite run_ret, memcmp_bytes_zero by lia.
    rewrite <- app_assoc. reflexivity.
  - rewrite run_ret. reflexivity.
Qed.

Lemma decrypted_user g :
  map (fun e => to_uchar (Z.lxor e XOR_KEY)) ENC_USER
    ++ drop (length ENC_USER) (garbage g 5)
  = stored_user.
Proof. reflexivity. Qed.

Lemma decrypted_pass g :
  map (fun e => to_uchar (Z.lxor e XOR_KEY)) ENC_PASS
    ++ drop (length ENC_PASS) (garbage g 5)
  = stored_pass.
Proof. reflexivity. Qed.

Lemma narrowed_all g len cs :
  map to_uchar (take (Z.to_nat len) cs) ++ drop (Z.to_nat len) (garbage g len)
  = map to_uchar (take (Z.to_nat len) cs).
Proof.
  rewrite drop_ge by (rewrite length_garbage; lia). apply app_nil_r.
Qed.

Lemma free_null w : free NULL w = Some (tt, w).
Proof. reflexivity. Qed.

Ltac normalize :=
  rewrite ?length_app, ?length_insert; cbn [length]; heap_norm.

Ltac run1 :=
  first
    [ run secure_memzero_run
    | run free_run
    | run set_locked_run
    | run narrow_chars_run
    | run xor_decrypt_run
    | run compare_credentials_run
    | run Release_pinned_run
    | run Release_abort_run
    | rewrite ?run_bind, new_block_run; pure; normalize
    | rewrite ?run_bind, free_null; pure
    | rewrite ?run_bind, run_ret; pure ].

(** *** The flag *)

Lemma widened_flag sg rest :
  map (fun v => to_jchar (char_value sg v))
      (take 25 (map (fun e => to_uchar (Z.lxor e FLAG_KEY)) ENC_FLAG ++ rest))
  = flag_plaintext.
Proof. destruct sg; reflexivity. Qed.

Lemma flag_plaintext_jchars : Forall is_jchar flag_plaintext.
Proof.
  unfold is_jchar.
  let l := eval vm_compute in flag_plaintext in change flag_plaintext with l.
  repeat (constructor; [lia|]). constructor.
Qed.

Lemma checkCredentials_returns env w juser jpass user pass userLen passLen :
  java_chars w juser user ->
  java_chars w jpass pass ->
  0 <= userLen <= Z.of_nat (length user) ->
  0 <= passLen <= Z.of_nat (length pass) ->
  Z.of_nat (length user) < 2 ^ 31 ->
  Z.of_nat (length pass) < 2 ^ 31 ->
  exists w',
    checkCredentials env juser jpass userLen passLen w
    = Some (if credentials_accepted env user pass userLen passLen
            then JNI_TRUE else JNI_FALSE, w').
Proof.
  destruct w as [h p t]. destruct env as [lm uc pc ub pb stk].
  intros [Hu (au & lku & -> & Hau)] [Hp (ap & lkp & -> & Hap)] Hul Hpl Hun Hpn.
  cbn [heap] in Hau, Hap.
  pose proof (lookup_lt_Some _ _ _ Hau) as Haul.
  pose proof (lookup_lt_Some _ _ _ Hap) as Hapl.
  assert (Hsu : to_size_t userLen = userLen)
    by (unfold to_size_t; apply Z.mod_small; lia).
  assert (Hsp : to_size_t passLen = passLen)
    by (unfold to_size_t; apply Z.mod_small; lia).
  assert (Hsu2 : to_size_t (userLen * sizeof_jchar) = 2 * userLen)
    by (unfold to_size_t, sizeof_jchar; rewrite Z.mod_small by lia; lia).
  assert (Hsp2 : to_size_t (passLen * sizeof_jchar) = 2 * passLen)
    by (unfold to_size_t, sizeof_jchar; rewrite Z.mod_small by lia; lia).
  unfold checkCredentials, credentials_accepted, malloc, mlock,
    wipe_locked_mem, local_array, end_of_scope.
  cbn [ce_locked_mem ce_userChars ce_passChars ce_userBytes ce_passBytes
       ce_stack].
  rewrite Hsu, Hsp, Hsu2, Hsp2.
  change (sizeof ENC_USER) with 5. change (sizeof ENC_PASS) with 5.
  rewrite <- (app_nil_r h).
  assert (Hfin : forall b : bool,
    ((userLen =? 5) && (passLen =? 5)
     && bool_decide (map to_uchar (take (Z.to_nat userLen) user) = stored_user)
     && bool_decide (map to_uchar (take (Z.to_nat passLen) pass) = stored_pass))
    = (true && true && true && true && (userLen =? 5) && (passLen =? 5)
       && bool_decide (map to_uchar (take 5 user) = stored_user)
       && bool_decide (map to_uchar (take 5 pass) = stored_pass))).
  { intros _. cbn [andb].
    destruct (userLen =? 5) eqn:Eu; [|reflexivity].
    destruct (passLen =? 5) eqn:Ep; [|reflexivity].
    apply Z.eqb_eq in Eu, Ep. subst. reflexivity. }
  assert (Halias : au = ap -> user = pass /\ lku = lkp).
  { intros ->. rewrite Hau in Hap. injection Hap as Henc Hlk.
    split; [|exact Hlk].
    apply (f_equal decode_jchars) in Henc.
    rewrite !decode_encode_jchars, !map_to_jchar_id in Henc by assumption.
    exact Henc. }
  destruct (decide (au = ap)) as [Heq|Hne];
    [destruct (Halias Heq) as [<- <-]; subst ap; clear Halias Hap|clear Halias].
  all: destruct lm as [gl|]; do 2 run1.
  all: run GetCharArrayElements_run; destruct uc; pure; normalize.
  all: run GetCharArrayElements_run; destruct pc; pure; normalize.
  all: try (repeat run1; cbn [acquired allocated andb]; eexists; reflexivity).
  all: destruct ub as [gu|]; run1.
  all: destruct pb as [gp|]; run1.
  all: try (repeat run1; cbn [acquired allocated andb]; eexists; reflexivity).
  all: repeat run1.
  all: cbn [acquired allocated].
  all: rewrite ?decrypted_user, ?decrypted_pass, ?narrowed_all.
  all: change stored_pass with stored_user in *.
  all: rewrite (Hfin true); eexists; reflexivity.
Qed.

Lemma take_map_to_uchar n cs :
  map to_uchar (take n cs) = take n (map to_uchar cs).
Proof. symmetry. apply firstn_map. Qed.

(** * What a whole call does

    The final memory of every path of the entry points, for the properties
    that are about more than the result. *)

Lemma compare_trace_off ub du pb dp ubs dus userLen passLen :
  userLen <> 5 \/ passLen <> 5 ->
  compare_trace ub du pb dp ubs dus userLen passLen = [].
Proof.
  intros H. unfold compare_trace.
  destruct (userLen =? 5) eqn:Eu; [|reflexivity].
  destruct (passLen =? 5) eqn:Ep; [|reflexivity].
  apply Z.eqb_eq in Eu, Ep. lia.
Qed.

Lemma all_zero_replicate n : all_zero (replicate n 0) = true.
Proof. induction n as [|n IH]; [reflexivity | exact IH]. Qed.

Lemma all_zero_fill_zero n bs :
  (length bs <= n)%nat -> all_zero (fill_zero 0 n bs) = true.
Proof.
  intros H. unfold fill_zero. cbn [take app Nat.add].
  rewrite drop_ge by lia. rewrite app_nil_r. apply all_zero_replicate.
Qed.

Lemma fresh_blocks (Q : block -> Prop) (B N : list block) n :
  length B = n -> Forall Q N ->
  forall i blk, (n <= i)%nat -> (B ++ N) !! i = Some blk -> Q blk.
Proof.
  intros <- HN i blk Hi Hl. rewrite lookup_app_r in Hl by exact Hi.
  eapply Forall_lookup_1; eauto.
Qed.

Lemma fresh_blocks_after (Q : block -> Prop) (B N : list block) x n :
  length B = n -> Forall Q N ->
  forall i blk, (n < i)%nat -> (B ++ x :: N) !! i = Some blk -> Q blk.
Proof.
  intros <- HN i blk Hi Hl. rewrite lookup_app_r in Hl by lia.
  destruct (i - length B)%nat as [|k] eqn:E; [lia|]. cbn in Hl.
  eapply Forall_lookup_1; eauto.
Qed.

Lemma fresh_blocks_none (Q : block -> Prop) (B : list block) n :
  length B = n ->
  forall i blk, (n < i)%nat -> (B ++ []) !! i = Some blk -> Q blk.
Proof.
  intros <- i blk Hi Hl. rewrite app_nil_r in Hl.
  apply lookup_lt_Some in Hl. lia.
Qed.

Ltac close_old := intros; heap_find; first [reflexivity | eassumption].

Ltac close_released :=
  eapply fresh_blocks;
    [len_side | repeat (constructor; [reflexivity|]); constructor].

Ltac zero_blocks :=
  repeat (constructor; [cbn [bytes]; apply all_zero_fill_zero; len_bound|]);
  constructor.

Ltac close_zeroed := eapply fresh_blocks; [len_side | zero_blocks].

Ltac close_zeroed_after :=
  first [ eapply fresh_blocks_after; [len_side | zero_blocks]
        | eapply fresh_blocks_none; len_side ].

Lemma decryptFlagIntoBuffer_effect env h p t a lk cs :
  Forall is_jchar cs ->
  h !! a = Some (Block (encode_jchars cs) true lk) ->
  Z.of_nat (length cs) < 2 ^ 31 ->
  exists h',
    decryptFlagIntoBuffer env (Some a) (World h p t)
    = Some (tt, World h' p t) /\
    (forall i, (i < length h)%nat -> i <> a -> h' !! i = h !! i) /\
    (forall i blk, (length h <= i)%nat -> h' !! i = Some blk ->
                   live blk = false) /\
    h' !! a = Some (Block (encode_jchars
                             (if filled env cs
                              then flag_plaintext ++ drop 25 cs else cs))
                          true lk) /\
    (filled env cs = true -> pinned (de_buffer env) = true ->
     forall i blk, (length h <= i)%nat -> h' !! i = Some blk ->
                   all_zero (bytes blk) = true) /\
    (filled env cs = true ->
     forall i blk, (length h < i)%nat -> h' !! i = Some blk ->
                   all_zero (bytes blk) = true).
Proof.
  destruct env as [acq lm tmp sg].
  intros Hcs Ha Hlen.
  pose proof (lookup_lt_Some _ _ _ Ha) as Halt.
  assert (Hdiv : Z.of_nat (length (encode_jchars cs)) / sizeof_jchar
                 = Z.of_nat (length cs)).
  { rewrite length_encode_jchars.
    replace (Z.of_nat (2 * length cs)) with (Z.of_nat (length cs) * 2) by lia.
    unfold sizeof_jchar. apply Z.div_mul. lia. }
  assert (Hsz : to_size_t (Z.of_nat (length cs)) = Z.of_nat (length cs))
    by (unfold to_size_t; apply Z.mod_small; lia).
  assert (Hdone : forall X : list Z,
    encode_jchars (map (fun v => to_jchar (char_value sg v))
                     (take 25 (map (fun e => to_uchar (Z.lxor e FLAG_KEY))
                                   ENC_FLAG ++ X)))
    ++ drop (2 * 25) (encode_jchars cs)
    = encode_jchars (flag_plaintext ++ drop 25 cs)).
  { intros X.
    rewrite widened_flag, drop_encode_jchars, <- encode_jchars_app.
    reflexivity. }
  unfold decryptFlagIntoBuffer, filled.
  cbn [is_null de_buffer de_lockedMem de_tempDecrypt de_char_signed].
  unfold widen_chars, malloc, mlock, munlock.
  change (Z.to_nat FLAG_LEN) with 25%nat. change FLAG_LEN with 25.
  replace (World h p t) with (World (h ++ []) p t)
    by (rewrite app_nil_r; reflexivity).
  run GetCharArrayElements_run.
  destruct (Z.ltb_spec (Z.of_nat (length cs)) 25) as [Hsmall|Hbig];
    [ replace (25 <=? Z.of_nat (length cs)) with false
        by (symmetry; apply Z.leb_gt; lia)
    | replace (25 <=? Z.of_nat (length cs)) with true
        by (symmetry; apply Z.leb_le; lia) ].
  all: destruct acq; pure; normalize.
  all: try (run GetArrayLength_run; rewrite Hdiv, Hsz).
  all: try (replace (Z.of_nat (length cs) <? 25) with true
              by (symmetry; apply Z.ltb_lt; lia)).
  all: try (replace (Z.of_nat (length cs) <? 25) with false
              by (symmetry; apply Z.ltb_ge; lia)).
  all: try (destruct lm as [gl|]; [|]; destruct tmp as [g|]).
  all: repeat first
         [ run Release_copy_back_run
         | run widen_loop_run
         | run1 ].
  all: eexists; split; [reflexivity|].
  all: cbn [acquired allocated pinned andb].
  all: rewrite ?Hdone.
  all: split; [close_old|].
  all: split; [close_released|].
  all: split; [heap_lookup|].
  all: split;
    [ intros Hx; first [discriminate Hx
                       | intros Hy; first [discriminate Hy | close_zeroed]]
    | intros Hx; first [discriminate Hx | close_zeroed_after] ].
Qed.

Lemma wipeFlagBuffer_run acq h p t a lk cs :
  h !! a = Some (Block (encode_jchars cs) true lk) ->
  Z.of_nat (length cs) < 2 ^ 31 ->
  wipeFlagBuffer acq (Some a) (World h p t)
  = Some (tt, World (match acq with
                     | AcqFail => h
                     | AcqDirect =>
                         <[a := Block (encode_jchars
                                         (replicate (length cs) 0)) true lk]> h
                     | AcqCopy =>
                         h ++ [Block (replicate (2 * length cs) 0) false false]
                     end) p t).
Proof.
  intros Ha Hlen.
  pose proof (lookup_lt_Some _ _ _ Ha) as Halt.
  assert (Hsz : to_size_t (to_size_t (Z.of_nat (length (encode_jchars cs))
                                      / sizeof_jchar) * sizeof_jchar)
                = Z.of_nat (length (encode_jchars cs))).
  { rewrite length_encode_jchars.
    replace (Z.of_nat (2 * length cs)) with (Z.of_nat (length cs) * 2) by lia.
    unfold sizeof_jchar at 1. rewrite Z.div_mul by lia.
    rewrite size_in_bytes by lia. lia. }
  unfold wipeFlagBuffer. cbn [is_null].
  rewrite run_bind, (GetCharArrayElements_run _ _ _ _ _ _ _ Ha).
  destruct acq; cbv beta iota; cbn [is_null].
  - reflexivity.
  - rewrite run_bind, (GetArrayLength_run _ _ _ _ _ _ Ha), Hsz.
    rewrite run_bind.
    erewrite secure_memzero_run; [ | exact Ha | lia ].
    rewrite Nat2Z.id, fill_zero_all, length_encode_jchars,
      <- encode_jchars_zero.
    erewrite Release_pinned_run by heap_lookup. reflexivity.
  - rewrite run_bind.
    erewrite GetArrayLength_run by heap_lookup. rewrite Hsz.
    rewrite run_bind.
    rewrite <- (Nat.add_0_r (length h)).
    erewrite secure_memzero_run; [ | heap_lookup | lia ].
    rewrite Nat2Z.id, fill_zero_all, length_encode_jchars.
    heap_norm.
    erewrite Release_abort_run; [ | heap_lookup | heap_lookup | lia ].
    heap_norm. reflexivity.
Qed.
Ltac open_post := do 3 eexists; split; [reflexivity|].

Ltac close_check :=
  open_post;
  cbn [acquired allocated pinned andb];
  split;
    [ intros Hx;
      first [ reflexivity
            | rewrite compare_trace_off;
              [ apply app_nil_r
              | destruct Hx as [Hx|Hx]; [discriminate Hx | exact Hx] ] ] | ];
  split; [close_old|];
  split; [close_released|];
  split;
    [ intros Hx Hy; first [discriminate Hx | discriminate Hy | close_old] | ];
  split; [intros Hx; first [congruence | split; heap_lookup]|];
  intros Hg; first [discriminate Hg | intros -> ->; close_zeroed].

Lemma checkCredentials_effect env h p t au ap lku lkp user pass
    userLen passLen :
  Forall is_jchar user -> Forall is_jchar pass ->
  h !! au = Some (Block (encode_jchars user) true lku) ->
  h !! ap = Some (Block (encode_jchars pass) true lkp) ->
  0 <= userLen <= Z.of_nat (length user) ->
  0 <= passLen <= Z.of_nat (length pass) ->
  Z.of_nat (length user) < 2 ^ 31 ->
  Z.of_nat (length pass) < 2 ^ 31 ->
  exists r h' t',
    checkCredentials env (Some au) (Some ap) userLen passLen (World h p t)
    = Some (r, World h' p t') /\
    (granted env = false \/ userLen <> 5 \/ passLen <> 5 -> t' = t) /\
    (forall i, (i < length h)%nat -> i <> au -> i <> ap -> h' !! i = h !! i) /\
    (forall i blk, (length h <= i)%nat -> h' !! i = Some blk ->
                   live blk = false) /\
    (pinned (ce_userChars env) = false -> pinned (ce_passChars env) = false ->
     forall i, (i < length h)%nat -> h' !! i = h !! i) /\
    (au <> ap ->
     h' !! au = Some (Block (if granted env && pinned (ce_userChars env)
                             then fill_zero 0 (Z.to_nat (2 * userLen))
                                    (encode_jchars user)
                             else encode_jchars user) true lku) /\
     h' !! ap = Some (Block (if granted env && pinned (ce_passChars env)
                             then fill_zero 0 (Z.to_nat (2 * passLen))
                                    (encode_jchars pass)
                             else encode_jchars pass) true lkp)) /\
    (granted env = true ->
     userLen = Z.of_nat (length user) -> passLen = Z.of_nat (length pass) ->
     forall i blk, (length h <= i)%nat -> h' !! i = Some blk ->
                   all_zero (bytes blk) = true).
Proof.
  destruct env as [lm uc pc ub pb stk].
  intros Hu Hp Hau Hap Hul Hpl Hun Hpn.
  pose proof (lookup_lt_Some _ _ _ Hau) as Haul.
  pose proof (lookup_lt_Some _ _ _ Hap) as Hapl.
  assert (Hsu : to_size_t userLen = userLen)
    by (unfold to_size_t; apply Z.mod_small; lia).
  assert (Hsp : to_size_t passLen = passLen)
    by (unfold to_size_t; apply Z.mod_small; lia).
  assert (Hsu2 : to_size_t (userLen * sizeof_jchar) = 2 * userLen)
    by (unfold to_size_t, sizeof_jchar; rewrite Z.mod_small by lia; lia).
  assert (Hsp2 : to_size_t (passLen * sizeof_jchar) = 2 * passLen)
    by (unfold to_size_t, sizeof_jchar; rewrite Z.mod_small by lia; lia).
  unfold checkCredentials, granted, malloc, mlock,
    wipe_locked_mem, local_array, end_of_scope.
  cbn [ce_locked_mem ce_userChars ce_passChars ce_userBytes ce_passBytes
       ce_stack].
  rewrite Hsu, Hsp, Hsu2, Hsp2.
  change (sizeof ENC_USER) with 5. change (sizeof ENC_PASS) with 5.
  replace (World h p t) with (World (h ++ []) p t)
    by (rewrite app_nil_r; reflexivity).
  assert (Halias : au = ap -> user = pass /\ lku = lkp).
  { intros ->. rewrite Hau in Hap. injection Hap as Henc Hlk.
    split; [|exact Hlk].
    apply (f_equal decode_jchars) in Henc.
    rewrite !decode_encode_jchars, !map_to_jchar_id in Henc by assumption.
    exact Henc. }
  destruct (decide (au = ap)) as [Heq|Hne];
    [destruct (Halias Heq) as [<- <-]; subst ap; clear Halias Hap|clear Halias].
  all: destruct lm as [gl|]; do 2 run1.
  all: run GetCharArrayElements_run; destruct uc; pure; normalize.
  all: run GetCharArrayElements_run; destruct pc; pure; normalize.
  all: try solve [repeat run1; close_check].
  all: destruct ub as [gu|]; run1; destruct pb as [gp|]; run1.
  all: repeat run1; close_check.
Qed.

Lemma fill_zero_chars n cs :
  (n <= length cs)%nat ->
  fill_zero 0 (2 * n) (encode_jchars cs)
  = encode_jchars (replicate n 0 ++ drop n cs).
Proof.
  intros Hn. unfold fill_zero. cbn [take app Nat.add].
  rewrite encode_jchars_app, encode_jchars_zero, drop_encode_jchars.
  reflexivity.
Qed.

Lemma zero_prefix_jchars n cs :
  Forall is_jchar cs -> Forall is_jchar (zero_prefix n cs).
Proof.
  intros H. unfold zero_prefix. apply Forall_app. split.
  - apply Forall_replicate. unfold is_jchar. lia.
  - apply Forall_drop, H.
Qed.

(** What a well-formed call does, with the arrays named by their blocks. *)
Lemma checkCredentials_does env w au ap user pass userLen passLen :
  well_formed_call w au ap user pass userLen passLen ->
  exists lku lkp,
    heap w !! au = Some (Block (encode_jchars user) true lku) /\
    heap w !! ap = Some (Block (encode_jchars pass) true lkp) /\
  exists r h' t',
    checkCredentials env (Some au) (Some ap) userLen passLen w
    = Some (r, World h' (pending w) t') /\
    (granted env = false \/ userLen <> 5 \/ passLen <> 5 -> t' = trace w) /\
    (forall i, (i < length (heap w))%nat -> i <> au -> i <> ap ->
               h' !! i = heap w !! i) /\
    (forall i blk, (length (heap w) <= i)%nat -> h' !! i = Some blk ->
                   live blk = false) /\
    (pinned (ce_userChars env) = false -> pinned (ce_passChars env) = false ->
     forall i, (i < length (heap w))%nat -> h' !! i = heap w !! i) /\
    (au <> ap ->
     h' !! au = Some (Block (if granted env && pinned (ce_userChars env)
                             then fill_zero 0 (Z.to_nat (2 * userLen))
                                    (encode_jchars user)
                             else encode_jchars user) true lku) /\
     h' !! ap = Some (Block (if granted env && pinned (ce_passChars env)
                             then fill_zero 0 (Z.to_nat (2 * passLen))
                                    (encode_jchars pass)
                             else encode_jchars pass) true lkp)) /\
    (granted env = true ->
     userLen = Z.of_nat (length user) -> passLen = Z.of_nat (length pass) ->
     forall i blk, (length (heap w) <= i)%nat -> h' !! i = Some blk ->
                   all_zero (bytes blk) = true).
Proof.
  destruct w as [h p t].
  intros ([Hu (a1 & lku & E1 & Hau)] & [Hp (a2 & lkp & E2 & Hap)]
          & Hul & Hpl & Hun & Hpn).
  injection E1 as <-. injection E2 as <-. cbn [heap] in Hau, Hap.
  exists lku, lkp. split; [exact Hau|]. split; [exact Hap|].
  apply checkCredentials_effect; assumption.
Qed.

(** What a call of [decryptFlagIntoBuffer] on a live array does. *)
Lemma decryptFlagIntoBuffer_does env w a cs :
  java_chars w (Some a) cs ->
  Z.of_nat (length cs) < 2 ^ 31 ->
  exists lk,
    heap w !! a = Some (Block (encode_jchars cs) true lk) /\
  exists h',
    decryptFlagIntoBuffer env (Some a) w
    = Some (tt, World h' (pending w) (trace w)) /\
    (forall i, (i < length (heap w))%nat -> i <> a -> h' !! i = heap w !! i) /\
    (forall i blk, (length (heap w) <= i)%nat -> h' !! i = Some blk ->
                   live blk = false) /\
    h' !! a = Some (Block (encode_jchars
                             (if filled env cs
                              then flag_plaintext ++ drop 25 cs else cs))
                          true lk) /\
    (filled env cs = true -> pinned (de_buffer env) = true ->
     forall i blk, (length (heap w) <= i)%nat -> h' !! i = Some blk ->
                   all_zero (bytes blk) = true) /\
    (filled env cs = true ->
     forall i blk, (length (heap w) < i)%nat -> h' !! i = Some blk ->
                   all_zero (bytes blk) = true).
Proof.
  destruct w as [h p t].
  intros [Hcs (a1 & lk & E1 & Ha)] Hlen. injection E1 as <-.
  cbn [heap] in Ha. exists lk. split; [exact Ha|].
  apply decryptFlagIntoBuffer_effect; assumption.
Qed.

Lemma filled_chars env cs :
  Forall is_jchar cs ->
  Forall is_jchar (if filled env cs then flag_plaintext ++ drop 25 cs else cs)
  /\ (Z.of_nat (length cs) < 2 ^ 31 ->
      length (if filled env cs then flag_plaintext ++ drop 25 cs else cs)
      = length cs).
Proof.
  intros Hcs. unfold filled.
  destruct (Z.leb_spec 25 (Z.of_nat (length cs))) as [Hl|Hl];
    destruct (acquired _ && allocated _); cbn [andb]; split; auto.
  - apply Forall_app. split; [apply flag_plaintext_jchars|].
    apply Forall_drop, Hcs.
  - intros _. rewrite length_app, length_drop.
    change (length flag_plaintext) with 25%nat. lia.
Qed.

(** A loop whose iteration [k0] has no result has no result. *)
Lemma for_loop_stuck (I : nat -> world) body k0 n : forall o,
  (o <= k0 < o + n)%nat ->
  (forall k, (o <= k < k0)%nat ->
             body (Z.of_nat k) (I k) = Some (tt, I (S k))) ->
  body (Z.of_nat k0) (I k0) = None ->
  for_loop n (Z.of_nat o) body (I o) = None.
Proof.
  induction n as [|n IH]; intros o Hk Hstep Hfail; [lia|].
  cbn [for_loop]. rewrite run_bind.
  destruct (decide (o = k0)) as [->|Hne].
  - rewrite Hfail. reflexivity.
  - rewrite Hstep by lia.
    replace (Z.of_nat o + 1) with (Z.of_nat (S o)) by lia.
    apply IH; [lia | intros k Hk'; apply Hstep; lia | exact Hfail].
Qed.

Lemma lookup_encode_past cs i :
  (2 * length cs <= i)%nat -> encode_jchars cs !! i = None.
Proof.
  intros H. apply lookup_ge_None. rewrite length_encode_jchars. exact H.
Qed.

Lemma narrow_chars_overrun h p t dst src dbs dlk cs slk len :
  h !! dst = Some (Block dbs true dlk) ->
  h !! src = Some (Block (encode_jchars cs) true slk) ->
  dst <> src ->
  (length cs < Z.to_nat len)%nat ->
  (length cs <= length dbs)%nat ->
  narrow_chars (Some dst) (Some src) len (World h p t) = None.
Proof.
  intros Hdst Hsrc Hne Hcs Hdbs. unfold narrow_chars.
  set (I := fun k => World (<[dst := Block (map to_uchar (take k cs)
                                            ++ drop k dbs) true dlk]> h) p t).
  assert (H0 : World h p t = I 0%nat).
  { unfold I. cbn [take map app drop].
    rewrite list_insert_id by exact Hdst. reflexivity. }
  rewrite H0.
  apply (for_loop_stuck I _ (length cs) (Z.to_nat len) 0%nat); [lia| |].
  - intros k Hk. unfold I.
    destruct (lookup_lt_is_Some_2 cs k ltac:(lia)) as [c Hc].
    rewrite run_bind.
    erewrite load_jchar_run;
      [ | rewrite list_lookup_insert_ne by exact Hne; exact Hsrc | exact Hc ].
    erewrite store_byte_run;
      [ | apply list_lookup_insert_eq; eapply lookup_lt_Some, Hdst
        | rewrite length_app, length_map, length_take, length_drop; lia ].
    rewrite list_insert_insert_eq.
    rewrite insert_after_prefix
      by (rewrite ?length_map, ?length_take; lia).
    rewrite (take_S_r cs k c Hc), map_app, to_uchar_to_jchar. reflexivity.
  - unfold I, load_jchar. rewrite !run_bind. unfold load_byte at 1.
    cbn [heap]. rewrite list_lookup_insert_ne by exact Hne. rewrite Hsrc.
    cbn [live bytes andb].
    replace (0 <=? 2 * Z.of_nat (length cs)) with true
      by (symmetry; apply Z.leb_le; lia).
    rewrite lookup_encode_past by lia. reflexivity.
Qed.

(** * Properties of the entry points *)

(** ** C1: what [checkCredentials] accepts *)

(** C1 (amended). In a call whose lengths do not exceed the arrays,
    [checkCredentials] returns [JNI_TRUE] or [JNI_FALSE], and it returns
    [JNI_TRUE] exactly when both element buffers were acquired, both
    temporary buffers were allocated, [userLen] and [passLen] are 5, and
    the low 8 bits of the first five characters of each array spell the
    decrypted stored credentials (each [ENC] byte xor 0x5A). *)
Theorem checkCredentials_accepts_iff env w juser jpass user pass
    userLen passLen :
  java_chars w juser user ->
  java_chars w jpass pass ->
  0 <= userLen <= Z.of_nat (length user) ->
  0 <= passLen <= Z.of_nat (length pass) ->
  Z.of_nat (length user) < 2 ^ 31 ->
  Z.of_nat (length pass) < 2 ^ 31 ->
  exists r w',
    checkCredentials env juser jpass userLen passLen w = Some (r, w') /\
    (r = JNI_TRUE \/ r = JNI_FALSE) /\
    (r = JNI_TRUE <->
       ce_userChars env <> AcqFail /\ ce_passChars env <> AcqFail /\
       ce_userBytes env <> None /\ ce_passBytes env <> None /\
       userLen = 5 /\ passLen = 5 /\
       map to_uchar (take 5 user) = stored_user /\
       map to_uchar (take 5 pass) = stored_pass).
Proof.
  intros Hu Hp Hul Hpl Hun Hpn.
  destruct (checkCredentials_returns env w juser jpass user pass userLen
              passLen Hu Hp Hul Hpl Hun Hpn) as [w' Hrun].
  eexists _, w'. split; [exact Hrun|].
  unfold credentials_accepted.
  destruct env as [lm uc pc ub pb stk].
  cbn [ce_userChars ce_passChars ce_userBytes ce_passBytes].
  split; [destruct (_ && _); auto|].
  destruct (userLen =? 5) eqn:Eu; destruct (passLen =? 5) eqn:Ep;
    (apply Z.eqb_eq in Eu || apply Z.eqb_neq in Eu);
    (apply Z.eqb_eq in Ep || apply Z.eqb_neq in Ep);
    destruct (bool_decide_reflect (map to_uchar (take 5 user) = stored_user));
    destruct (bool_decide_reflect (map to_uchar (take 5 pass) = stored_pass));
    destruct uc, pc, ub, pb; cbn [acquired allocated andb];
    unfold JNI_TRUE, JNI_FALSE;
    (split; [intros H; try discriminate H; repeat split; congruence
            | intros (? & ? & ? & ? & ? & ? & ? & ?); congruence]).
Qed.


Lemma checkCredentials_accepts_iff_witness :
  exists r w',
    checkCredentials all_granted (Some 0%nat) (Some 1%nat) 5 5
      (two_arrays admin admin) = Some (r, w') /\
    (r = JNI_TRUE \/ r = JNI_FALSE) /\
    (r = JNI_TRUE <->
       ce_userChars all_granted <> AcqFail /\
       ce_passChars all_granted <> AcqFail /\
       ce_userBytes all_granted <> None /\
       ce_passBytes all_granted <> None /\
       5 = 5 /\ 5 = 5 /\
       map to_uchar (take 5 admin) = stored_user /\
       map to_uchar (take 5 admin) = stored_pass).
Proof.
  apply (checkCredentials_accepts_iff all_granted (two_arrays admin admin)
           (Some 0%nat) (Some 1%nat) admin admin 5 5).
  - split; [repeat constructor; unfold is_jchar; lia|].
    exists 0%nat, false. split; reflexivity.
  - split; [repeat constructor; unfold is_jchar; lia|].
    exists 1%nat, false. split; reflexivity.
  - cbn; lia.
  - cbn; lia.
  - cbn; lia.
  - cbn; lia.
Defined.

(** C1 as stated fails twice over. Five characters that are not the
    stored user name ([0x0161] instead of ['a'] in front) are accepted,
    since only their low bytes are compared; and the stored credentials
    themselves are rejected when the allocation of a temporary buffer
    fails. *)
Lemma checkCredentials_not_exact :
  [0x161; 0x64; 0x6D; 0x69; 0x6E] <> stored_user /\
  option_map fst
    (checkCredentials all_granted (Some 0%nat) (Some 1%nat) 5 5
       (two_arrays [0x161; 0x64; 0x6D; 0x69; 0x6E] admin))
  = Some JNI_TRUE /\
  admin = stored_user /\ admin = stored_pass /\
  option_map fst
    (checkCredentials
       (CheckEnv (Some stale) AcqCopy AcqCopy None (Some stale) stale)
       (Some 0%nat) (Some 1%nat) 5 5 (two_arrays admin admin))
  = Some JNI_FALSE.
Proof.
  split; [discriminate|].
  split; [vm_compute; reflexivity|].
  split; [reflexivity|]. split; [reflexivity|].
  vm_compute; reflexivity.
Qed.

(** ** C2: what [wipeFlagBuffer] wipes *)

(** C2 (amended). For a live array of fewer than 2^31 elements,
    [wipeFlagBuffer] returns and signals no error. It zeroes the element
    buffer it acquired and releases it with [JNI_ABORT]: when the runtime
    pinned the array, every element of the caller's array reads as zero
    afterwards; when the runtime handed out a copy, the copy is zeroed and
    freed and the caller's array is as it was; when the acquisition fails,
    nothing happens. *)
Theorem wipeFlagBuffer_effect acq w jbuffer cs :
  java_chars w jbuffer cs ->
  Z.of_nat (length cs) < 2 ^ 31 ->
  exists w',
    wipeFlagBuffer acq jbuffer w = Some (tt, w') /\
    pending w' = pending w /\
    match acq with
    | AcqFail => w' = w
    | AcqDirect => java_chars w' jbuffer (replicate (length cs) 0)
    | AcqCopy =>
        java_chars w' jbuffer cs /\
        heap w' = heap w ++ [Block (replicate (2 * length cs) 0) false false]
    end.
Proof.
  destruct w as [h p t].
  intros [Hcs (a & lk & -> & Ha)] Hlen. cbn [heap] in Ha.
  pose proof (lookup_lt_Some _ _ _ Ha) as Halt.
  assert (Hsz : to_size_t (to_size_t (Z.of_nat (length (encode_jchars cs))
                                      / sizeof_jchar) * sizeof_jchar)
                = Z.of_nat (length (encode_jchars cs))).
  { rewrite length_encode_jchars.
    replace (Z.of_nat (2 * length cs)) with (Z.of_nat (length cs) * 2) by lia.
    unfold sizeof_jchar at 1. rewrite Z.div_mul by lia.
    rewrite size_in_bytes by lia. lia. }
  unfold wipeFlagBuffer. cbn [is_null].
  rewrite run_bind, (GetCharArrayElements_run _ _ _ _ _ _ _ Ha).
  destruct acq; cbv beta iota; cbn [is_null].
  - eexists. repeat split.
  - rewrite run_bind, (GetArrayLength_run _ _ _ _ _ _ Ha), Hsz.
    rewrite run_bind.
    erewrite secure_memzero_run; [ | exact Ha | lia ].
    rewrite Nat2Z.id, fill_zero_all, length_encode_jchars,
      <- encode_jchars_zero.
    erewrite Release_pinned_run by heap_lookup.
    eexists. split; [reflexivity|]. split; [reflexivity|].
    split.
    + apply Forall_replicate. unfold is_jchar. lia.
    + exists a, lk. split; [reflexivity|]. cbn [heap]. heap_lookup.
  - rewrite run_bind.
    erewrite GetArrayLength_run by heap_lookup. rewrite Hsz.
    rewrite run_bind.
    rewrite <- (Nat.add_0_r (length h)).
    erewrite secure_memzero_run; [ | heap_lookup | lia ].
    rewrite Nat2Z.id, fill_zero_all, length_encode_jchars.
    heap_norm.
    erewrite Release_abort_run; [ | heap_lookup | heap_lookup | lia ].
    heap_norm.
    eexists. split; [reflexivity|]. split; [reflexivity|].
    split; [|reflexivity].
    split; [exact Hcs|]. exists a, lk. split; [reflexivity|].
    cbn [heap]. heap_lookup.
Qed.


Lemma wipeFlagBuffer_effect_witness :
  exists w',
    wipeFlagBuffer AcqDirect (Some 0%nat) (one_array [0x41; 0x42])
    = Some (tt, w') /\
    pending w' = pending (one_array [0x41; 0x42]) /\
    java_chars w' (Some 0%nat) (replicate 2 0).
Proof.
  apply (wipeFlagBuffer_effect AcqDirect (one_array [0x41; 0x42])
           (Some 0%nat) [0x41; 0x42]).
  - split; [repeat constructor; unfold is_jchar; lia|].
    exists 0%nat, false. split; reflexivity.
  - cbn; lia.
Defined.

(** C2 as stated fails when the runtime hands out a copy of the array:
    after the call the caller's array still reads ['A'; 'B']. *)
Lemma wipeFlagBuffer_copy_leaves_array :
  match wipeFlagBuffer AcqCopy (Some 0%nat) (one_array [0x41; 0x42]) with
  | Some (_, w') => java_array w' (Some 0%nat)
  | None => None
  end = Some [0x41; 0x42].
Proof. vm_compute. reflexivity. Qed.

(** ** C3, C4, C10: [decryptFlagIntoBuffer] *)

(** C3 (amended). When the destination has fewer than 25 elements,
    [decryptFlagIntoBuffer] returns without signalling anything (no
    exception is pending that was not pending before; the function has no
    result) and every element of the destination is unchanged. *)
Theorem decryptFlagIntoBuffer_too_small env w jbuffer cs :
  java_chars w jbuffer cs ->
  Z.of_nat (length cs) < 25 ->
  exists w',
    decryptFlagIntoBuffer env jbuffer w = Some (tt, w') /\
    pending w' = pending w /\
    java_chars w' jbuffer cs.
Proof.
  destruct w as [h p t]. destruct env as [acq lm tmp sg].
  intros [Hcs (a & lk & -> & Ha)] Hlen. cbn [heap] in Ha.
  pose proof (lookup_lt_Some _ _ _ Ha) as Halt.
  assert (Hsz : (to_size_t (Z.of_nat (length (encode_jchars cs))
                            / sizeof_jchar) <? 25) = true).
  { rewrite length_encode_jchars.
    replace (Z.of_nat (2 * length cs)) with (Z.of_nat (length cs) * 2) by lia.
    unfold sizeof_jchar. rewrite Z.div_mul by lia.
    unfold to_size_t. rewrite Z.mod_small by lia.
    apply Z.ltb_lt. lia. }
  unfold decryptFlagIntoBuffer. cbn [is_null de_buffer].
  change FLAG_LEN with 25.
  run GetCharArrayElements_run.
  destruct acq; pure.
  - eexists. split; [reflexivity|]. split; [reflexivity|].
    split; [exact Hcs|]. exists a, lk. split; [reflexivity | exact Ha].
  - run GetArrayLength_run. rewrite Hsz.
    erewrite Release_pinned_run by side.
    eexists. split; [reflexivity|]. split; [reflexivity|].
    split; [exact Hcs|]. exists a, lk. split; [reflexivity | exact Ha].
  - rewrite <- (Nat.add_0_r (length h)).
    run GetArrayLength_run. rewrite Hsz.
    erewrite Release_abort_run by side. heap_norm.
    eexists. split; [reflexivity|]. split; [reflexivity|].
    split; [exact Hcs|]. exists a, lk. split; [reflexivity|].
    cbn [heap]. heap_lookup.
Qed.


Lemma decryptFlagIntoBuffer_too_small_witness :
  exists w',
    decryptFlagIntoBuffer (DecryptEnv AcqCopy (Some stale) (Some stale) false)
      (Some 0%nat) (one_array [1; 2; 3]) = Some (tt, w') /\
    pending w' = pending (one_array [1; 2; 3]) /\
    java_chars w' (Some 0%nat) [1; 2; 3].
Proof.
  apply (decryptFlagIntoBuffer_too_small
           (DecryptEnv AcqCopy (Some stale) (Some stale) false)
           (one_array [1; 2; 3]) (Some 0%nat) [1; 2; 3]).
  - split; [repeat constructor; unfold is_jchar; lia|].
    exists 0%nat, false. split; reflexivity.
  - cbn; lia.
Defined.

(** C3 as stated fails: with a destination of three elements the call
    returns and no [BufferTooSmallError] is pending. *)
Lemma too_small_signals_nothing :
  ~ signals "BufferTooSmallError"
      (decryptFlagIntoBuffer
         (DecryptEnv AcqDirect (Some stale) (Some stale) false)
         (Some 0%nat) (one_array [1; 2; 3])).
Proof.
  intros (a & w' & Hrun & Hpending). vm_compute in Hrun.
  injection Hrun as _ <-. discriminate Hpending.
Qed.

(** C4. When the destination has at least 25 elements and the call goes
    through (the element buffer is acquired and the temporary buffer is
    allocated), the first 25 elements of the caller's array are the
    plaintext [ENC_FLAG[i] xor 0x5A] and every element from index 25 on is
    unchanged. *)
Theorem decryptFlagIntoBuffer_fills env w jbuffer cs :
  java_chars w jbuffer cs ->
  25 <= Z.of_nat (length cs) < 2 ^ 31 ->
  de_buffer env <> AcqFail ->
  de_tempDecrypt env <> None ->
  exists w',
    decryptFlagIntoBuffer env jbuffer w = Some (tt, w') /\
    java_chars w' jbuffer (flag_plaintext ++ drop 25 cs).
Proof.
  destruct w as [h p t]. destruct env as [acq lm tmp sg].
  cbn [de_buffer de_tempDecrypt].
  intros [Hcs (a & lk & -> & Ha)] Hlen Hacq Htmp. cbn [heap] in Ha.
  destruct tmp as [g|]; [clear Htmp|congruence].
  pose proof (lookup_lt_Some _ _ _ Ha) as Halt.
  assert (Hfin : Forall is_jchar (flag_plaintext ++ drop 25 cs)).
  { apply Forall_app. split; [apply flag_plaintext_jchars|].
    apply Forall_drop, Hcs. }
  assert (Hsz : (to_size_t (Z.of_nat (length (encode_jchars cs))
                            / sizeof_jchar) <? 25) = false).
  { rewrite length_encode_jchars.
    replace (Z.of_nat (2 * length cs)) with (Z.of_nat (length cs) * 2) by lia.
    unfold sizeof_jchar. rewrite Z.div_mul by lia.
    unfold to_size_t. rewrite Z.mod_small by lia.
    apply Z.ltb_ge. lia. }
  unfold decryptFlagIntoBuffer.
  cbn [is_null de_buffer de_lockedMem de_tempDecrypt de_char_signed].
  unfold widen_chars, malloc, mlock, munlock.
  change (Z.to_nat FLAG_LEN) with 25%nat. change FLAG_LEN with 25.
  run GetCharArrayElements_run.
  assert (Hdone : forall X : list Z,
    Some (Block (encode_jchars
                   (map (fun v => to_jchar (char_value sg v))
                      (take 25 (map (fun e => to_uchar (Z.lxor e FLAG_KEY))
                                    ENC_FLAG ++ X)))
                 ++ drop (2 * 25) (encode_jchars cs)) true lk)
    = Some (Block (encode_jchars (flag_plaintext ++ drop 25 cs)) true lk)).
  { intros X.
    rewrite widened_flag, drop_encode_jchars, <- encode_jchars_app.
    reflexivity. }
  destruct acq; [congruence| |]; pure.
  - run GetArrayLength_run. rewrite Hsz.
    destruct lm as [gl|].
    + run_alloc0 h. 
      run set_locked_run.
      run_alloc.
      run xor_decrypt_run.
      run widen_loop_run.
      run secure_memzero_run.
      run free_run.
      run secure_memzero_run.
      run set_locked_run.
      run free_run.
      erewrite Release_pinned_run by side.
      eexists. split; [reflexivity|].
      split; [exact Hfin|]. exists a, lk. split; [reflexivity|].
      cbn [heap]. heap_find. apply Hdone.
    + skip.
      skip.
      run_alloc0 h.
      run xor_decrypt_run.
      run widen_loop_run.
      run secure_memzero_run.
      run free_run.
      skip.
      erewrite Release_pinned_run by side.
      eexists. split; [reflexivity|].
      split; [exact Hfin|]. exists a, lk. split; [reflexivity|].
      cbn [heap]. heap_find. apply Hdone.
  - rewrite <- (Nat.add_0_r (length h)).
    run GetArrayLength_run. rewrite Hsz.
    destruct lm as [gl|].
    + run_alloc. 
      run set_locked_run.
      run_alloc.
      run xor_decrypt_run.
      run widen_loop_run.
      run secure_memzero_run.
      run free_run.
      run secure_memzero_run.
      run set_locked_run.
      run free_run.
      erewrite Release_copy_back_run by side. heap_norm.
      eexists. split; [reflexivity|].
      split; [exact Hfin|]. exists a, lk. split; [reflexivity|].
      cbn [heap]. heap_find. apply Hdone.
    + skip.
      skip.
      run_alloc.
      run xor_decrypt_run.
      run widen_loop_run.
      run secure_memzero_run.
      run free_run.
      skip.
      erewrite Release_copy_back_run by side. heap_norm.
      eexists. split; [reflexivity|].
      split; [exact Hfin|]. exists a, lk. split; [reflexivity|].
      cbn [heap]. heap_find. apply Hdone.
Qed.


Lemma decryptFlagIntoBuffer_fills_witness :
  exists w',
    decryptFlagIntoBuffer (DecryptEnv AcqCopy (Some stale) (Some stale) true)
      (Some 0%nat) (one_array (replicate 27 0x2E)) = Some (tt, w') /\
    java_chars w' (Some 0%nat)
      (flag_plaintext ++ drop 25 (replicate 27 0x2E)).
Proof.
  apply (decryptFlagIntoBuffer_fills
           (DecryptEnv AcqCopy (Some stale) (Some stale) true)
           (one_array (replicate 27 0x2E)) (Some 0%nat) (replicate 27 0x2E)).
  - split; [repeat constructor; unfold is_jchar; lia|].
    exists 0%nat, false. split; reflexivity.
  - cbn; lia.
  - discriminate.
  - discriminate.
Defined.

(** C10. With a null handle, or when the runtime fails to hand out the
    elements of a live array, [decryptFlagIntoBuffer] and [wipeFlagBuffer]
    return with the world exactly as it was: no memory written, no
    exception pending that was not pending before. *)
Theorem null_or_unacquired_buffer_is_noop env acq jbuffer w cs :
  jbuffer = NULL \/
  (java_chars w jbuffer cs /\ de_buffer env = AcqFail /\ acq = AcqFail) ->
  decryptFlagIntoBuffer env jbuffer w = Some (tt, w) /\
  wipeFlagBuffer acq jbuffer w = Some (tt, w).
Proof.
  intros [-> | ([_ (a & lk & -> & Ha)] & Henv & ->)].
  - split; reflexivity.
  - destruct w as [h p t]. cbn [heap] in Ha.
    unfold decryptFlagIntoBuffer, wipeFlagBuffer. rewrite Henv. pure.
    split; run GetCharArrayElements_run; reflexivity.
Qed.

Lemma null_or_unacquired_buffer_is_noop_witness :
  decryptFlagIntoBuffer (DecryptEnv AcqFail (Some stale) (Some stale) false)
    (Some 0%nat) (one_array [1; 2]) = Some (tt, one_array [1; 2]) /\
  wipeFlagBuffer AcqFail (Some 0%nat) (one_array [1; 2])
  = Some (tt, one_array [1; 2]).
Proof.
  apply (null_or_unacquired_buffer_is_noop
           (DecryptEnv AcqFail (Some stale) (Some stale) false) AcqFail
           (Some 0%nat) (one_array [1; 2]) [1; 2]).
  right. split; [|split; reflexivity].
  split; [repeat constructor; unfold is_jchar; lia|].
  exists 0%nat, false. split; reflexivity.
Defined.

(** ** C5: the error paths *)

(** C5 fails on the code. When [malloc(FLAG_LEN)] fails in
    [decryptFlagIntoBuffer], [lockedMem] (block 1) is unlocked and freed
    with its 1024 bytes as they were, where the success path zeroes it
    first. When [malloc(passLen)] fails in [checkCredentials], the element
    buffers of both arrays (blocks 3 and 4, here copies holding the
    candidate credentials) and [userBytes] (block 5) are released as they
    are, where the success path zeroes all three first. *)
Theorem error_paths_release_unwiped_buffers :
  match decryptFlagIntoBuffer (DecryptEnv AcqDirect (Some stale) None false)
          (Some 0%nat) (one_array (replicate 25 0x2E)) with
  | Some (_, w') => released_unwiped (one_array (replicate 25 0x2E)) w'
  | None => []
  end = [1%nat] /\
  match checkCredentials
          (CheckEnv (Some stale) AcqCopy AcqCopy (Some stale) None stale)
          (Some 0%nat) (Some 1%nat) 5 5 (two_arrays admin admin) with
  | Some (_, w') => released_unwiped (two_arrays admin admin) w'
  | None => []
  end = [3%nat; 4%nat; 5%nat].
Proof. split; vm_compute; reflexivity. Qed.

(** ** C6: [secure_memzero] leaves zeros *)

(** C6. For a pointer to a live region of at least [n] bytes,
    [secure_memzero] returns, and immediately afterwards every one of the
    [n] bytes, read back through [load_byte], is zero. *)
Theorem secure_memzero_zeroes w b blk n :
  heap w !! b = Some blk ->
  live blk = true ->
  0 <= n <= Z.of_nat (length (bytes blk)) ->
  exists w',
    secure_memzero (Some b) n w = Some (tt, w') /\
    forall i, 0 <= i < n -> load_byte (Some b) i w' = Some (0, w').
Proof.
  destruct w as [h p t]. destruct blk as [bs lv lk]. cbn [heap live bytes].
  intros Hb -> Hn. eexists. split.
  - apply secure_memzero_run; eauto.
  - intros i Hi. rewrite <- (Z2Nat.id i) by lia.
    eapply load_byte_run.
    + apply list_lookup_insert_eq. eapply lookup_lt_Some, Hb.
    + apply fill_zero_lookup; lia.
Qed.


Lemma secure_memzero_zeroes_witness :
  exists w',
    secure_memzero (Some 0%nat) 3 (World [Block [7; 8; 9; 10] true false] None [])
    = Some (tt, w') /\
    forall i, 0 <= i < 3 -> load_byte (Some 0%nat) i w' = Some (0, w').
Proof.
  apply (secure_memzero_zeroes (World [Block [7; 8; 9; 10] true false] None [])
           0%nat (Block [7; 8; 9; 10] true false) 3).
  - reflexivity.
  - reflexivity.
  - cbn; lia.
Defined.

(** ** C7: [getFlagLength] *)


(** ** C8: the comparison is not constant-time *)

(** C8 fails on the code. With a user name that differs from the stored
    one, [checkCredentials] compares the user name and never looks at the
    password: one call of [memcmp]; the right operand of [&&] is not
    evaluated. With the right user name it makes two. What is visited
    depends on the secret bytes. *)
Theorem comparison_depends_on_secret_bytes :
  option_map (fun rw => (fst rw, trace (snd rw)))
    (checkCredentials all_granted (Some 0%nat) (Some 1%nat) 5 5
       (two_arrays [0x78; 0x64; 0x6D; 0x69; 0x6E] admin))
  = Some (JNI_FALSE, [EvMemcmp 5 7 5]) /\
  option_map (fun rw => (fst rw, trace (snd rw)))
    (checkCredentials all_granted (Some 0%nat) (Some 1%nat) 5 5
       (two_arrays admin admin))
  = Some (JNI_TRUE, [EvMemcmp 5 7 5; EvMemcmp 6 8 5]).
Proof. split; vm_compute; reflexivity. Qed.

(** ** C9: only the low bytes count *)

(** C9. Two calls of [checkCredentials] with the same lengths and the
    same answers from the runtime and the allocator, on arrays whose
    characters agree in their low 8 bits at every position, return the
    same boolean. *)
Theorem checkCredentials_low_bytes_only env w1 w2 juser1 jpass1 juser2 jpass2
    user1 pass1 user2 pass2 userLen passLen :
  java_chars w1 juser1 user1 -> java_chars w1 jpass1 pass1 ->
  java_chars w2 juser2 user2 -> java_chars w2 jpass2 pass2 ->
  map to_uchar user1 = map to_uchar user2 ->
  map to_uchar pass1 = map to_uchar pass2 ->
  0 <= userLen <= Z.of_nat (length user1) ->
  0 <= passLen <= Z.of_nat (length pass1) ->
  Z.of_nat (length user1) < 2 ^ 31 ->
  Z.of_nat (length pass1) < 2 ^ 31 ->
  exists r w1' w2',
    checkCredentials env juser1 jpass1 userLen passLen w1 = Some (r, w1') /\
    checkCredentials env juser2 jpass2 userLen passLen w2 = Some (r, w2').
Proof.
  intros Hu1 Hp1 Hu2 Hp2 Eu Ep Hul Hpl Hun Hpn.
  assert (Lu : length user2 = length user1)
    by (apply (f_equal length) in Eu; rewrite !length_map in Eu; lia).
  assert (Lp : length pass2 = length pass1)
    by (apply (f_equal length) in Ep; rewrite !length_map in Ep; lia).
  destruct (checkCredentials_returns env w1 juser1 jpass1 user1 pass1 userLen
              passLen Hu1 Hp1 Hul Hpl Hun Hpn) as [w1' H1].
  destruct (checkCredentials_returns env w2 juser2 jpass2 user2 pass2 userLen
              passLen Hu2 Hp2) as [w2' H2]; try lia.
  eexists _, w1', w2'. split; [exact H1|]. rewrite H2.
  unfold credentials_accepted.
  rewrite !take_map_to_uchar, Eu, Ep. reflexivity.
Qed.

Lemma checkCredentials_low_bytes_only_witness :
  exists r w1' w2',
    checkCredentials all_granted (Some 0%nat) (Some 1%nat) 5 5
      (two_arrays admin admin) = Some (r, w1') /\
    checkCredentials all_granted (Some 1%nat) (Some 0%nat) 5 5
      (two_arrays admin [0x161; 0x264; 0x36D; 0x469; 0x56E]) = Some (r, w2').
Proof.
  apply (checkCredentials_low_bytes_only all_granted
           (two_arrays admin admin)
           (two_arrays admin [0x161; 0x264; 0x36D; 0x469; 0x56E])
           (Some 0%nat) (Some 1%nat) (Some 1%nat) (Some 0%nat)
           admin admin [0x161; 0x264; 0x36D; 0x469; 0x56E] admin 5 5).
  - split; [repeat constructor; unfold is_jchar; lia|].
    exists 0%nat, false. split; reflexivity.
  - split; [repeat constructor; unfold is_jchar; lia|].
    exists 1%nat, false. split; reflexivity.
  - split; [repeat constructor; unfold is_jchar; lia|].
    exists 1%nat, false. split; reflexivity.
  - split; [repeat constructor; unfold is_jchar; lia|].
    exists 0%nat, false. split; reflexivity.
  - reflexivity.
  - reflexivity.
  - cbn; lia.
  - cbn; lia.
  - cbn; lia.
  - cbn; lia.
Defined.

(** * Further properties

    Frame, release and wiping of each entry point, their behaviour at the
    edges and how they compose. *)

Ltac array_at k :=
  split; [ repeat constructor; unfold is_jchar; lia
         | exists k, false; split; reflexivity ].

Ltac call_on_examples :=
  split; [array_at 0%nat|]; split; [array_at 1%nat|]; cbn; lia.

(** ** [secure_memzero] *)

(** X1. [secure_memzero] writes the first [n] bytes of its region and
    nothing else. *)
Theorem secure_memzero_frame w b blk n :
  heap w !! b = Some blk ->
  live blk = true ->
  0 <= n <= Z.of_nat (length (bytes blk)) ->
  exists w',
    secure_memzero (Some b) n w = Some (tt, w') /\
    heap w' !! b
    = Some (Block (replicate (Z.to_nat n) 0 ++ drop (Z.to_nat n) (bytes blk))
                  true (locked blk)) /\
    (forall b', b' <> b -> heap w' !! b' = heap w !! b') /\
    length (heap w') = length (heap w) /\
    pending w' = pending w /\ trace w' = trace w.
Proof.
  destruct w as [h p t]. destruct blk as [bs lv lk]. cbn [heap live bytes locked].
  intros Hb -> Hn. eexists. split; [apply secure_memzero_run; eauto|].
  cbn [heap pending trace].
  split; [apply list_lookup_insert_eq; eapply lookup_lt_Some, Hb|].
  split; [intros b' Hne; apply list_lookup_insert_ne; congruence|].
  split; [apply length_insert|]. split; reflexivity.
Qed.

Lemma secure_memzero_frame_witness :
  exists w',
    secure_memzero (Some 1%nat) 2
      (World [Block [1; 2] true false; Block [7; 8; 9; 10] true true] None [])
    = Some (tt, w') /\
    heap w' !! 1%nat = Some (Block [0; 0; 9; 10] true true) /\
    (forall b', b' <> 1%nat ->
       heap w' !! b'
       = [Block [1; 2] true false; Block [7; 8; 9; 10] true true] !! b') /\
    length (heap w') = 2%nat /\
    pending w' = None /\ trace w' = [].
Proof.
  apply (secure_memzero_frame
           (World [Block [1; 2] true false; Block [7; 8; 9; 10] true true]
                  None [])
           1%nat (Block [7; 8; 9; 10] true true) 2).
  - reflexivity.
  - reflexivity.
  - cbn; lia.
Defined.


(** ** [checkCredentials] *)

(** X2. The verdict of [checkCredentials] depends on the runtime and the
    allocator only through which requests they grant: whether
    [malloc(1024)] succeeds, whether the arrays are pinned or copied and
    what fresh memory holds make no difference. *)
Theorem checkCredentials_verdict_needs_only_grants env1 env2 w au ap
    user pass userLen passLen :
  well_formed_call w au ap user pass userLen passLen ->
  acquired (ce_userChars env1) = acquired (ce_userChars env2) ->
  acquired (ce_passChars env1) = acquired (ce_passChars env2) ->
  allocated (ce_userBytes env1) = allocated (ce_userBytes env2) ->
  allocated (ce_passBytes env1) = allocated (ce_passBytes env2) ->
  exists r w1 w2,
    checkCredentials env1 (Some au) (Some ap) userLen passLen w = Some (r, w1)
    /\
    checkCredentials env2 (Some au) (Some ap) userLen passLen w = Some (r, w2).
Proof.
  intros (Hu & Hp & Hul & Hpl & Hun & Hpn) E1 E2 E3 E4.
  destruct (checkCredentials_returns env1 w _ _ _ _ _ _ Hu Hp Hul Hpl Hun Hpn)
    as [w1 H1].
  destruct (checkCredentials_returns env2 w _ _ _ _ _ _ Hu Hp Hul Hpl Hun Hpn)
    as [w2 H2].
  eexists _, w1, w2. split; [exact H1|]. rewrite H2.
  unfold credentials_accepted. rewrite E1, E2, E3, E4. reflexivity.
Qed.

Lemma checkCredentials_verdict_needs_only_grants_witness :
  exists r w1 w2,
    checkCredentials all_granted (Some 0%nat) (Some 1%nat) 5 5
      (two_arrays admin admin) = Some (r, w1) /\
    checkCredentials
      (CheckEnv None AcqDirect AcqCopy (Some (fun _ => 0)) (Some stale)
                (fun _ => 1))
      (Some 0%nat) (Some 1%nat) 5 5 (two_arrays admin admin) = Some (r, w2).
Proof.
  apply (checkCredentials_verdict_needs_only_grants all_granted
           (CheckEnv None AcqDirect AcqCopy (Some (fun _ => 0)) (Some stale)
                     (fun _ => 1))
           (two_arrays admin admin) 0%nat 1%nat admin admin 5 5).
  - call_on_examples.
  - reflexivity.
  - reflexivity.
  - reflexivity.
  - reflexivity.
Defined.

(** X3. [checkCredentials] signals nothing and, of the memory that existed
    before the call, changes at most the two arrays it was given. *)
Theorem checkCredentials_touches_only_its_arrays env w au ap user pass
    userLen passLen :
  well_formed_call w au ap user pass userLen passLen ->
  exists r w',
    checkCredentials env (Some au) (Some ap) userLen passLen w = Some (r, w')
    /\ pending w' = pending w
    /\ forall i, (i < length (heap w))%nat -> i <> au -> i <> ap ->
                 heap w' !! i = heap w !! i.
Proof.
  intros Hwf.
  destruct (checkCredentials_does env w au ap user pass userLen passLen Hwf)
    as (lku & lkp & _ & _ & r & h' & t' & Hrun & _ & Hframe & _).
  eexists _, _. split; [exact Hrun|]. split; [reflexivity | exact Hframe].
Qed.

Lemma checkCredentials_touches_only_its_arrays_witness :
  exists r w',
    checkCredentials all_granted (Some 0%nat) (Some 1%nat) 5 5
      (two_arrays admin admin) = Some (r, w')
    /\ pending w' = pending (two_arrays admin admin)
    /\ forall i, (i < length (heap (two_arrays admin admin)))%nat ->
                 i <> 0%nat -> i <> 1%nat ->
                 heap w' !! i = heap (two_arrays admin admin) !! i.
Proof.
  apply (checkCredentials_touches_only_its_arrays all_granted
           (two_arrays admin admin) 0%nat 1%nat admin admin 5 5).
  call_on_examples.
Defined.

(** X4. On every path, whatever [checkCredentials] allocated (the locked
    region, the element buffers, the byte buffers, its local arrays) has
    been released when it returns. *)
Theorem checkCredentials_releases_what_it_allocates env w au ap user pass
    userLen passLen :
  well_formed_call w au ap user pass userLen passLen ->
  exists r w',
    checkCredentials env (Some au) (Some ap) userLen passLen w = Some (r, w')
    /\ forall i blk, (length (heap w) <= i)%nat -> heap w' !! i = Some blk ->
                     live blk = false.
Proof.
  intros Hwf.
  destruct (checkCredentials_does env w au ap user pass userLen passLen Hwf)
    as (lku & lkp & _ & _ & r & h' & t' & Hrun & _ & _ & Hrel & _).
  eexists _, _. split; [exact Hrun | exact Hrel].
Qed.

Lemma checkCredentials_releases_what_it_allocates_witness :
  exists r w',
    checkCredentials
      (CheckEnv (Some stale) AcqCopy AcqCopy (Some stale) None stale)
      (Some 0%nat) (Some 1%nat) 5 5 (two_arrays admin admin) = Some (r, w')
    /\ forall i blk, (length (heap (two_arrays admin admin)) <= i)%nat ->
                     heap w' !! i = Some blk -> live blk = false.
Proof.
  apply (checkCredentials_releases_what_it_allocates
           (CheckEnv (Some stale) AcqCopy AcqCopy (Some stale) None stale)
           (two_arrays admin admin) 0%nat 1%nat admin admin 5 5).
  call_on_examples.
Defined.

(** X5. When the runtime pins neither array (it copies, or fails), the call
    leaves all memory that existed before it, the caller's two arrays
    included, exactly as it was: the buffers are released with
    [JNI_ABORT]. *)
Theorem checkCredentials_on_copies_changes_nothing env w au ap user pass
    userLen passLen :
  well_formed_call w au ap user pass userLen passLen ->
  ce_userChars env <> AcqDirect ->
  ce_passChars env <> AcqDirect ->
  exists r w',
    checkCredentials env (Some au) (Some ap) userLen passLen w = Some (r, w')
    /\ (forall i, (i < length (heap w))%nat -> heap w' !! i = heap w !! i)
    /\ java_chars w' (Some au) user /\ java_chars w' (Some ap) pass.
Proof.
  intros Hwf Hcu Hcp.
  destruct (checkCredentials_does env w au ap user pass userLen passLen Hwf)
    as (lku & lkp & Hau & Hap & r & h' & t' & Hrun & _ & _ & _ & Hsame & _).
  destruct Hwf as ([Hu _] & [Hp _] & _).
  assert (Hold : forall i, (i < length (heap w))%nat ->
                           h' !! i = heap w !! i).
  { apply Hsame; [destruct (ce_userChars env) | destruct (ce_passChars env)];
      first [reflexivity | congruence]. }
  eexists _, _. split; [exact Hrun|]. cbn [heap].
  split; [exact Hold|].
  split; (split; [assumption|]); eexists _, _; (split; [reflexivity|]).
  - cbn [heap]. rewrite Hold by (eapply lookup_lt_Some, Hau). exact Hau.
  - cbn [heap]. rewrite Hold by (eapply lookup_lt_Some, Hap). exact Hap.
Qed.

Lemma checkCredentials_on_copies_changes_nothing_witness :
  exists r w',
    checkCredentials all_granted (Some 0%nat) (Some 1%nat) 5 5
      (two_arrays admin admin) = Some (r, w')
    /\ (forall i, (i < length (heap (two_arrays admin admin)))%nat ->
                  heap w' !! i = heap (two_arrays admin admin) !! i)
    /\ java_chars w' (Some 0%nat) admin /\ java_chars w' (Some 1%nat) admin.
Proof.
  apply (checkCredentials_on_copies_changes_nothing all_granted
           (two_arrays admin admin) 0%nat 1%nat admin admin 5 5).
  - call_on_examples.
  - discriminate.
  - discriminate.
Defined.

(** X6. In a call that got everything it asked for, a pinned array comes
    back with its first [userLen] (or [passLen]) characters zeroed and the
    rest as it was: the wipe of step 6c lands in the caller's array. *)
Theorem checkCredentials_zeroes_pinned_input env w au ap user pass
    userLen passLen :
  well_formed_call w au ap user pass userLen passLen ->
  granted env = true ->
  au <> ap ->
  exists r w',
    checkCredentials env (Some au) (Some ap) userLen passLen w = Some (r, w')
    /\ (ce_userChars env = AcqDirect ->
        java_chars w' (Some au) (zero_prefix userLen user))
    /\ (ce_passChars env = AcqDirect ->
        java_chars w' (Some ap) (zero_prefix passLen pass)).
Proof.
  intros Hwf Hg Hne.
  destruct (checkCredentials_does env w au ap user pass userLen passLen Hwf)
    as (lku & lkp & _ & _ & r & h' & t' & Hrun & _ & _ & _ & _ & Harr & _).
  destruct (Harr Hne) as [Hu' Hp']. rewrite Hg in Hu', Hp'. cbn [andb] in *.
  destruct Hwf as ([Hu _] & [Hp _] & Hul & Hpl & _).
  eexists _, _. split; [exact Hrun|]. split; intros Hd; rewrite Hd in *;
    cbn [pinned] in *.
  - split; [apply zero_prefix_jchars, Hu|]. eexists _, _.
    split; [reflexivity|]. cbn [heap]. rewrite Hu'. do 2 f_equal.
    replace (Z.to_nat (2 * userLen)) with (2 * Z.to_nat userLen)%nat by lia.
    apply fill_zero_chars. lia.
  - split; [apply zero_prefix_jchars, Hp|]. eexists _, _.
    split; [reflexivity|]. cbn [heap]. rewrite Hp'. do 2 f_equal.
    replace (Z.to_nat (2 * passLen)) with (2 * Z.to_nat passLen)%nat by lia.
    apply fill_zero_chars. lia.
Qed.

Lemma checkCredentials_zeroes_pinned_input_witness :
  exists r w',
    checkCredentials
      (CheckEnv (Some stale) AcqDirect AcqCopy (Some stale) (Some stale) stale)
      (Some 0%nat) (Some 1%nat) 3 5
      (two_arrays [0x61; 0x62; 0x63; 0x64] admin) = Some (r, w')
    /\ (AcqDirect = AcqDirect ->
        java_chars w' (Some 0%nat) (zero_prefix 3 [0x61; 0x62; 0x63; 0x64]))
    /\ (AcqCopy = AcqDirect ->
        java_chars w' (Some 1%nat) (zero_prefix 5 admin)).
Proof.
  apply (checkCredentials_zeroes_pinned_input
           (CheckEnv (Some stale) AcqDirect AcqCopy (Some stale) (Some stale)
                     stale)
           (two_arrays [0x61; 0x62; 0x63; 0x64] admin) 0%nat 1%nat
           [0x61; 0x62; 0x63; 0x64] admin 3 5).
  - call_on_examples.
  - reflexivity.
  - discriminate.
Defined.



(** X8. In a call that got everything it asked for and whose lengths are
    the lengths of the arrays, every block the call allocated holds only
    zeros when the call returns: step 6 wipes the local arrays, the byte
    buffers, the element buffers and the locked region before releasing
    them. *)
Theorem checkCredentials_wipes_what_it_allocates env w au ap user pass
    userLen passLen :
  well_formed_call w au ap user pass userLen passLen ->
  granted env = true ->
  userLen = Z.of_nat (length user) ->
  passLen = Z.of_nat (length pass) ->
  exists r w',
    checkCredentials env (Some au) (Some ap) userLen passLen w = Some (r, w')
    /\ forall i blk, (length (heap w) <= i)%nat -> heap w' !! i = Some blk ->
                     all_zero (bytes blk) = true.
Proof.
  intros Hwf Hg Hul Hpl.
  destruct (checkCredentials_does env w au ap user pass userLen passLen Hwf)
    as (lku & lkp & _ & _ & r & h' & t' & Hrun & _ & _ & _ & _ & _ & Hz).
  eexists _, _. split; [exact Hrun|]. exact (Hz Hg Hul Hpl).
Qed.

Lemma checkCredentials_wipes_what_it_allocates_witness :
  exists r w',
    checkCredentials all_granted (Some 0%nat) (Some 1%nat) 5 5
      (two_arrays admin admin) = Some (r, w')
    /\ forall i blk, (length (heap (two_arrays admin admin)) <= i)%nat ->
                     heap w' !! i = Some blk -> all_zero (bytes blk) = true.
Proof.
  apply (checkCredentials_wipes_what_it_allocates all_granted
           (two_arrays admin admin) 0%nat 1%nat admin admin 5 5).
  - call_on_examples.
  - reflexivity.
  - reflexivity.
  - reflexivity.
Defined.

(** X9. Unless everything was granted and both lengths are 5, the call
    compares nothing: it returns without a single call of [memcmp]. *)
Theorem checkCredentials_compares_only_length_5 env w au ap user pass
    userLen passLen :
  well_formed_call w au ap user pass userLen passLen ->
  granted env = false \/ userLen <> 5 \/ passLen <> 5 ->
  exists r w',
    checkCredentials env (Some au) (Some ap) userLen passLen w = Some (r, w')
    /\ trace w' = trace w.
Proof.
  intros Hwf Hoff.
  destruct (checkCredentials_does env w au ap user pass userLen passLen Hwf)
    as (lku & lkp & _ & _ & r & h' & t' & Hrun & Htr & _).
  eexists _, _. split; [exact Hrun|]. exact (Htr Hoff).
Qed.

Lemma checkCredentials_compares_only_length_5_witness :
  exists r w',
    checkCredentials all_granted (Some 0%nat) (Some 1%nat) 4 5
      (two_arrays admin admin) = Some (r, w')
    /\ trace w' = trace (two_arrays admin admin).
Proof.
  apply (checkCredentials_compares_only_length_5 all_granted
           (two_arrays admin admin) 0%nat 1%nat admin admin 4 5).
  - call_on_examples.
  - right. left. discriminate.
Defined.


(** With a length larger than its array the whole call has no defined
    behaviour. *)
Lemma checkCredentials_overrun_undefined env w au ap user pass
    userLen passLen :
  java_chars w (Some au) user ->
  java_chars w (Some ap) pass ->
  0 <= userLen < 2 ^ 31 ->
  0 <= passLen < 2 ^ 31 ->
  Z.of_nat (length user) < userLen \/ Z.of_nat (length pass) < passLen ->
  granted env = true ->
  checkCredentials env (Some au) (Some ap) userLen passLen w = None.
Proof.
  destruct w as [h p t]. destruct env as [lm uc pc ub pb stk].
  intros [Hu (a1 & lku & E1 & Hau)] [Hp (a2 & lkp & E2 & Hap)] Hul Hpl Hover Hg.
  injection E1 as <-. injection E2 as <-. cbn [heap] in Hau, Hap.
  pose proof (lookup_lt_Some _ _ _ Hau) as Haul.
  pose proof (lookup_lt_Some _ _ _ Hap) as Hapl.
  assert (Hsu : to_size_t userLen = userLen)
    by (unfold to_size_t; apply Z.mod_small; lia).
  assert (Hsp : to_size_t passLen = passLen)
    by (unfold to_size_t; apply Z.mod_small; lia).
  unfold checkCredentials, malloc, mlock.
  cbn [ce_locked_mem ce_userChars ce_passChars ce_userBytes ce_passBytes
       ce_stack].
  rewrite Hsu, Hsp.
  replace (World h p t) with (World (h ++ []) p t)
    by (rewrite app_nil_r; reflexivity).
  unfold granted in Hg.
  cbn [ce_userChars ce_passChars ce_userBytes ce_passBytes] in Hg.
  destruct uc; try discriminate Hg; destruct pc; try discriminate Hg;
    destruct ub as [gu|]; try discriminate Hg;
    destruct pb as [gp|]; try discriminate Hg.
  all: destruct lm as [gl|]; do 2 run1.
  all: run GetCharArrayElements_run; pure; normalize.
  all: run GetCharArrayElements_run; pure; normalize.
  all: do 2 run1.
  all: destruct (Z.le_gt_cases userLen (Z.of_nat (length user))) as [Hfit|Hbig];
    [ run narrow_chars_run | ].
  all: rewrite run_bind; erewrite narrow_chars_overrun by side; reflexivity.
Qed.

(** X10. [checkCredentials] trusts [userLen] and [passLen]. The function
    is its lines 58-101 followed by the two conversion loops of lines
    105-106 and the rest. On two live arrays, with every request granted,
    lines 58-101 run to the point where the loops start; there, when
    [userLen] is larger than the user array, the first loop has no defined
    behaviour: it reads the element buffer past its last element. When
    [userLen] fits and [passLen] is larger than the password array, the
    first loop runs and the second has no defined behaviour. So the call
    has none. *)
Theorem checkCredentials_overreads_short_array env w au ap user pass
    userLen passLen :
  java_chars w (Some au) user ->
  java_chars w (Some ap) pass ->
  0 <= userLen < 2 ^ 31 ->
  0 <= passLen < 2 ^ 31 ->
  Z.of_nat (length user) < userLen \/ Z.of_nat (length pass) < passLen ->
  granted env = true ->
  (exists rest,
     checkCredentials env (Some au) (Some ap) userLen passLen
     = check_until_conversion env (Some au) (Some ap) userLen passLen
         (fun locked_mem userChars passChars userBytes passBytes =>
            narrow_chars userBytes userChars userLen ;;
            narrow_chars passBytes passChars passLen ;;
            rest locked_mem userChars passChars userBytes passBytes)) /\
  (exists locked_mem userChars passChars userBytes passBytes w1,
     (forall k,
        check_until_conversion env (Some au) (Some ap) userLen passLen k w
        = k locked_mem userChars passChars userBytes passBytes w1) /\
     (Z.of_nat (length user) < userLen ->
      narrow_chars userBytes userChars userLen w1 = None) /\
     (userLen <= Z.of_nat (length user) ->
      exists w2,
        narrow_chars userBytes userChars userLen w1 = Some (tt, w2) /\
        narrow_chars passBytes passChars passLen w2 = None)) /\
  checkCredentials env (Some au) (Some ap) userLen passLen w = None.
Proof.
  intros Hju Hjp Hul Hpl Hover Hg.
  pose proof (checkCredentials_overrun_undefined env w au ap user pass
                userLen passLen Hju Hjp Hul Hpl Hover Hg) as Hnone.
  split.
  { unfold checkCredentials, check_until_conversion. eexists. reflexivity. }
  split; [|exact Hnone]. clear Hnone.
  destruct w as [h p t]. destruct env as [lm uc pc ub pb stk].
  destruct Hju as [Hu (a1 & lku & E1 & Hau)].
  destruct Hjp as [Hp (a2 & lkp & E2 & Hap)].
  injection E1 as <-. injection E2 as <-. cbn [heap] in Hau, Hap.
  pose proof (lookup_lt_Some _ _ _ Hau) as Haul.
  pose proof (lookup_lt_Some _ _ _ Hap) as Hapl.
  assert (Hsu : to_size_t userLen = userLen)
    by (unfold to_size_t; apply Z.mod_small; lia).
  assert (Hsp : to_size_t passLen = passLen)
    by (unfold to_size_t; apply Z.mod_small; lia).
  unfold check_until_conversion, malloc, mlock.
  cbn [ce_locked_mem ce_userChars ce_passChars ce_userBytes ce_passBytes
       ce_stack].
  rewrite Hsu, Hsp.
  replace (World h p t) with (World (h ++ []) p t)
    by (rewrite app_nil_r; reflexivity).
  unfold granted in Hg.
  cbn [ce_userChars ce_passChars ce_userBytes ce_passBytes] in Hg.
  destruct uc; try discriminate Hg; destruct pc; try discriminate Hg;
    destruct ub as [gu|]; try discriminate Hg;
    destruct pb as [gp|]; try discriminate Hg.
  all: destruct lm as [gl|].
  all: do 6 eexists; split;
    [ intros k; do 2 run1;
      run GetCharArrayElements_run; pure; normalize;
      run GetCharArrayElements_run; pure; normalize;
      do 2 run1; reflexivity
    | split;
      [ intros Hbig; erewrite narrow_chars_overrun by side; reflexivity
      | intros Hfit; destruct Hover as [Hbig|Hbig]; [lia|];
        eexists; split;
        [ erewrite narrow_chars_run by side; heap_norm; reflexivity
        | erewrite narrow_chars_overrun by side; reflexivity ] ] ].
Qed.

(** Five elements asked of an array of three: lines 58-101 reach the
    loops, and the first loop has no defined behaviour. *)
Lemma checkCredentials_overreads_short_array_witness :
  exists locked_mem userChars passChars userBytes passBytes w1,
    (forall k,
       check_until_conversion all_granted (Some 0%nat) (Some 1%nat) 5 5 k
         (two_arrays [0x61; 0x62; 0x63] admin)
       = k locked_mem userChars passChars userBytes passBytes w1) /\
    narrow_chars userBytes userChars 5 w1 = None.
Proof.
  destruct (checkCredentials_overreads_short_array all_granted
              (two_arrays [0x61; 0x62; 0x63] admin) 0%nat 1%nat
              [0x61; 0x62; 0x63] admin 5 5)
    as (_ & (lm & uc & pc & ub & pb & w1 & Hreach & Huser & _) & _).
  - split; [repeat constructor; unfold is_jchar; lia|].
    exists 0%nat, false. split; reflexivity.
  - split; [repeat constructor; unfold is_jchar; lia|].
    exists 1%nat, false. split; reflexivity.
  - cbn; lia.
  - cbn; lia.
  - left. cbn; lia.
  - reflexivity.
  - exists lm, uc, pc, ub, pb, w1. split; [exact Hreach|].
    apply Huser. cbn; lia.
Defined.

(** ** [decryptFlagIntoBuffer], [getFlagLength], [wipeFlagBuffer] *)

(** X11. When [malloc(FLAG_LEN)] fails, [decryptFlagIntoBuffer] returns
    silently and the destination is as it was, whatever its length and
    whether it was pinned or copied: nothing reaches the Java buffer before
    the temporary buffer exists. *)
Theorem decryptFlagIntoBuffer_alloc_failure_keeps_buffer env w a cs :
  java_chars w (Some a) cs ->
  Z.of_nat (length cs) < 2 ^ 31 ->
  de_tempDecrypt env = None ->
  exists w',
    decryptFlagIntoBuffer env (Some a) w = Some (tt, w') /\
    pending w' = pending w /\
    java_chars w' (Some a) cs.
Proof.
  intros Hj Hlen Htmp.
  destruct (decryptFlagIntoBuffer_does env w a cs Hj Hlen)
    as (lk & _ & h' & Hrun & _ & _ & Harr & _).
  assert (Hf : filled env cs = false).
  { unfold filled. rewrite Htmp. cbn [allocated].
    rewrite andb_false_r. reflexivity. }
  rewrite Hf in Harr. destruct Hj as [Hcs _].
  eexists. split; [exact Hrun|]. split; [reflexivity|].
  split; [exact Hcs|]. exists a, lk. split; [reflexivity | exact Harr].
Qed.

Lemma decryptFlagIntoBuffer_alloc_failure_keeps_buffer_witness :
  exists w',
    decryptFlagIntoBuffer (DecryptEnv AcqDirect (Some stale) None true)
      (Some 0%nat) (one_array (replicate 25 0x2E)) = Some (tt, w') /\
    pending w' = pending (one_array (replicate 25 0x2E)) /\
    java_chars w' (Some 0%nat) (replicate 25 0x2E).
Proof.
  apply (decryptFlagIntoBuffer_alloc_failure_keeps_buffer
           (DecryptEnv AcqDirect (Some stale) None true)
           (one_array (replicate 25 0x2E)) 0%nat (replicate 25 0x2E)).
  - array_at 0%nat.
  - cbn; lia.
  - reflexivity.
Defined.

(** X12. Of the memory that existed before the call,
    [decryptFlagIntoBuffer] changes at most the destination array; it
    signals nothing and calls no comparison. *)
Theorem decryptFlagIntoBuffer_touches_only_its_buffer env w a cs :
  java_chars w (Some a) cs ->
  Z.of_nat (length cs) < 2 ^ 31 ->
  exists w',
    decryptFlagIntoBuffer env (Some a) w = Some (tt, w') /\
    pending w' = pending w /\ trace w' = trace w /\
    forall i, (i < length (heap w))%nat -> i <> a ->
              heap w' !! i = heap w !! i.
Proof.
  intros Hj Hlen.
  destruct (decryptFlagIntoBuffer_does env w a cs Hj Hlen)
    as (lk & _ & h' & Hrun & Hframe & _).
  eexists. split; [exact Hrun|]. repeat split. exact Hframe.
Qed.

Lemma decryptFlagIntoBuffer_touches_only_its_buffer_witness :
  exists w',
    decryptFlagIntoBuffer (DecryptEnv AcqCopy (Some stale) (Some stale) true)
      (Some 1%nat) (two_arrays admin (replicate 25 0x2E)) = Some (tt, w') /\
    pending w' = pending (two_arrays admin (replicate 25 0x2E)) /\
    trace w' = trace (two_arrays admin (replicate 25 0x2E)) /\
    forall i, (i < 2)%nat ->
              i <> 1%nat ->
              heap w' !! i = heap (two_arrays admin (replicate 25 0x2E)) !! i.
Proof.
  apply (decryptFlagIntoBuffer_touches_only_its_buffer
           (DecryptEnv AcqCopy (Some stale) (Some stale) true)
           (two_arrays admin (replicate 25 0x2E)) 1%nat (replicate 25 0x2E)).
  - array_at 1%nat.
  - cbn; lia.
Defined.

(** X13. On every path, whatever [decryptFlagIntoBuffer] allocated (the
    element buffer, the locked region, the temporary buffer) has been
    released when it returns. *)
Theorem decryptFlagIntoBuffer_releases_what_it_allocates env w a cs :
  java_chars w (Some a) cs ->
  Z.of_nat (length cs) < 2 ^ 31 ->
  exists w',
    decryptFlagIntoBuffer env (Some a) w = Some (tt, w') /\
    forall i blk, (length (heap w) <= i)%nat -> heap w' !! i = Some blk ->
                  live blk = false.
Proof.
  intros Hj Hlen.
  destruct (decryptFlagIntoBuffer_does env w a cs Hj Hlen)
    as (lk & _ & h' & Hrun & _ & Hrel & _).
  eexists. split; [exact Hrun | exact Hrel].
Qed.

Lemma decryptFlagIntoBuffer_releases_what_it_allocates_witness :
  exists w',
    decryptFlagIntoBuffer (DecryptEnv AcqCopy (Some stale) None true)
      (Some 0%nat) (one_array (replicate 25 0x2E)) = Some (tt, w') /\
    forall i blk,
      (1 <= i)%nat ->
      heap w' !! i = Some blk -> live blk = false.
Proof.
  apply (decryptFlagIntoBuffer_releases_what_it_allocates
           (DecryptEnv AcqCopy (Some stale) None true)
           (one_array (replicate 25 0x2E)) 0%nat (replicate 25 0x2E)).
  - array_at 0%nat.
  - cbn; lia.
Defined.

(** X14. When [decryptFlagIntoBuffer] has written the flag, the temporary
    buffer and the locked region hold only zeros when they are freed; with
    a pinned array nothing the call allocated holds anything else. (With a
    copied array the first block allocated is the runtime's copy, which
    mode 0 releases as it is.) *)
Theorem decryptFlagIntoBuffer_wipes_its_temporaries env w a cs :
  java_chars w (Some a) cs ->
  Z.of_nat (length cs) < 2 ^ 31 ->
  filled env cs = true ->
  exists w',
    decryptFlagIntoBuffer env (Some a) w = Some (tt, w') /\
    (forall i blk, (length (heap w) < i)%nat -> heap w' !! i = Some blk ->
                   all_zero (bytes blk) = true) /\
    (de_buffer env = AcqDirect ->
     forall i blk, (length (heap w) <= i)%nat -> heap w' !! i = Some blk ->
                   all_zero (bytes blk) = true).
Proof.
  intros Hj Hlen Hf.
  destruct (decryptFlagIntoBuffer_does env w a cs Hj Hlen)
    as (lk & _ & h' & Hrun & _ & _ & _ & Hz & Hz').
  eexists. split; [exact Hrun|]. split; [exact (Hz' Hf)|].
  intros Hd. apply (Hz Hf). rewrite Hd. reflexivity.
Qed.

Lemma decryptFlagIntoBuffer_wipes_its_temporaries_witness :
  exists w',
    decryptFlagIntoBuffer (DecryptEnv AcqDirect (Some stale) (Some stale) true)
      (Some 0%nat) (one_array (replicate 25 0x2E)) = Some (tt, w') /\
    (forall i blk,
       (1 < i)%nat ->
       heap w' !! i = Some blk -> all_zero (bytes blk) = true) /\
    (AcqDirect = AcqDirect ->
     forall i blk,
       (1 <= i)%nat ->
       heap w' !! i = Some blk -> all_zero (bytes blk) = true).
Proof.
  apply (decryptFlagIntoBuffer_wipes_its_temporaries
           (DecryptEnv AcqDirect (Some stale) (Some stale) true)
           (one_array (replicate 25 0x2E)) 0%nat (replicate 25 0x2E)).
  - array_at 0%nat.
  - cbn; lia.
  - reflexivity.
Defined.

(** X15. A buffer of exactly [getFlagLength] elements receives exactly the
    flag: the length the first entry point reports is the length the
    second one needs and fills. *)
Theorem getFlagLength_sizes_the_buffer env w w1 n a cs :
  getFlagLength w = Some (n, w1) ->
  java_chars w1 (Some a) cs ->
  Z.of_nat (length cs) = n ->
  de_buffer env <> AcqFail ->
  de_tempDecrypt env <> None ->
  exists w',
    decryptFlagIntoBuffer env (Some a) w1 = Some (tt, w') /\
    java_chars w' (Some a) flag_plaintext.
Proof.
  intros Hn Hj Hlen Hacq Htmp. injection Hn as <- <-.
  change (to_jint FLAG_LEN) with 25 in Hlen.
  destruct (decryptFlagIntoBuffer_does env w a cs Hj ltac:(lia))
    as (lk & _ & h' & Hrun & _ & _ & Harr & _).
  assert (Hf : filled env cs = true).
  { unfold filled. rewrite Hlen.
    destruct (de_buffer env), (de_tempDecrypt env);
      first [congruence | reflexivity]. }
  rewrite Hf in Harr.
  rewrite drop_ge, app_nil_r in Harr by lia.
  eexists. split; [exact Hrun|].
  split; [apply flag_plaintext_jchars|].
  exists a, lk. split; [reflexivity | exact Harr].
Qed.

Lemma getFlagLength_sizes_the_buffer_witness :
  exists w',
    decryptFlagIntoBuffer (DecryptEnv AcqCopy None (Some stale) false)
      (Some 0%nat) (one_array (replicate 25 0)) = Some (tt, w') /\
    java_chars w' (Some 0%nat) flag_plaintext.
Proof.
  apply (getFlagLength_sizes_the_buffer
           (DecryptEnv AcqCopy None (Some stale) false)
           (one_array (replicate 25 0)) (one_array (replicate 25 0)) 25
           0%nat (replicate 25 0)).
  - reflexivity.
  - array_at 0%nat.
  - reflexivity.
  - discriminate.
  - discriminate.
Defined.

(** X16. [decryptFlagIntoBuffer] followed by [wipeFlagBuffer] on the same
    array. When the wipe gets the array pinned, the caller's array ends up
    all zeros; when the wipe gets a copy (or nothing), the caller's array
    still holds what the decryption left in it, the flag included. *)
Theorem decrypt_then_wipe env acq w a cs :
  java_chars w (Some a) cs ->
  Z.of_nat (length cs) < 2 ^ 31 ->
  exists w',
    (decryptFlagIntoBuffer env (Some a) ≫= fun _ => wipeFlagBuffer acq (Some a))
      w = Some (tt, w') /\
    java_chars w' (Some a)
      (if pinned acq then replicate (length cs) 0
       else if filled env cs then flag_plaintext ++ drop 25 cs else cs).
Proof.
  intros Hj Hlen.
  destruct (decryptFlagIntoBuffer_does env w a cs Hj Hlen)
    as (lk & Ha & h' & Hrun & _ & _ & Harr & _).
  destruct Hj as [Hcs _].
  destruct (filled_chars env cs Hcs) as [Hcs' Hlen'].
  specialize (Hlen' Hlen).
  rewrite run_bind, Hrun.
  rewrite (wipeFlagBuffer_run acq _ _ _ _ _ _ Harr) by lia.
  eexists. split; [reflexivity|].
  pose proof (lookup_lt_Some _ _ _ Harr) as Halt.
  destruct acq; cbn [pinned].
  - split; [exact Hcs'|]. exists a, lk. split; [reflexivity | exact Harr].
  - split; [apply Forall_replicate; unfold is_jchar; lia|].
    exists a, lk. split; [reflexivity|]. cbn [heap].
    rewrite list_lookup_insert_eq by exact Halt. rewrite Hlen'. reflexivity.
  - split; [exact Hcs'|]. exists a, lk. split; [reflexivity|]. cbn [heap].
    rewrite lookup_app_l by exact Halt. exact Harr.
Qed.

Lemma decrypt_then_wipe_witness :
  exists w',
    (decryptFlagIntoBuffer (DecryptEnv AcqCopy (Some stale) (Some stale) true)
       (Some 0%nat)
     ≫= fun _ => wipeFlagBuffer AcqCopy (Some 0%nat))
      (one_array (replicate 25 0x2E)) = Some (tt, w') /\
    java_chars w' (Some 0%nat)
      (if pinned AcqCopy then replicate (length (replicate 25 0x2E)) 0
       else if filled (DecryptEnv AcqCopy (Some stale) (Some stale) true)
                 (replicate 25 0x2E)
            then flag_plaintext ++ drop 25 (replicate 25 0x2E)
            else replicate 25 0x2E).
Proof.
  apply (decrypt_then_wipe
           (DecryptEnv AcqCopy (Some stale) (Some stale) true) AcqCopy
           (one_array (replicate 25 0x2E)) 0%nat (replicate 25 0x2E)).
  - array_at 0%nat.
  - cbn; lia.
Defined.

(** X17. Decrypting into a buffer that already holds the flag changes
    nothing: once a call has written the flag, a second call, whatever the
    runtime and the allocator answer this time, leaves the same
    characters in the array. *)
Theorem decryptFlagIntoBuffer_twice env1 env2 w a cs :
  java_chars w (Some a) cs ->
  Z.of_nat (length cs) < 2 ^ 31 ->
  filled env1 cs = true ->
  exists w1 w2,
    decryptFlagIntoBuffer env1 (Some a) w = Some (tt, w1) /\
    decryptFlagIntoBuffer env2 (Some a) w1 = Some (tt, w2) /\
    java_chars w1 (Some a) (flag_plaintext ++ drop 25 cs) /\
    java_chars w2 (Some a) (flag_plaintext ++ drop 25 cs).
Proof.
  intros Hj Hlen Hf.
  destruct (decryptFlagIntoBuffer_does env1 w a cs Hj Hlen)
    as (lk & Ha & h1 & Hrun1 & _ & _ & Harr1 & _).
  destruct Hj as [Hcs _].
  destruct (filled_chars env1 cs Hcs) as [Hcs1 Hlen1].
  specialize (Hlen1 Hlen). rewrite Hf in *.
  assert (Hj1 : java_chars (World h1 (pending w) (trace w)) (Some a)
                  (flag_plaintext ++ drop 25 cs)).
  { split; [exact Hcs1|]. exists a, lk. split; [reflexivity | exact Harr1]. }
  destruct (decryptFlagIntoBuffer_does env2 _ a _ Hj1 ltac:(lia))
    as (lk2 & Ha2 & h2 & Hrun2 & _ & _ & Harr2 & _).
  eexists _, _. split; [exact Hrun1|]. split; [exact Hrun2|].
  split; [exact Hj1|]. split; [exact Hcs1|].
  exists a, lk2. split; [reflexivity|]. cbn [heap]. rewrite Harr2.
  do 3 f_equal.
  destruct (filled env2 (flag_plaintext ++ drop 25 cs)); [|reflexivity].
  reflexivity.
Qed.

Lemma decryptFlagIntoBuffer_twice_witness :
  exists w1 w2,
    decryptFlagIntoBuffer (DecryptEnv AcqDirect (Some stale) (Some stale) true)
      (Some 0%nat) (one_array (replicate 26 0x2E)) = Some (tt, w1) /\
    decryptFlagIntoBuffer (DecryptEnv AcqCopy None (Some stale) false)
      (Some 0%nat) w1 = Some (tt, w2) /\
    java_chars w1 (Some 0%nat) (flag_plaintext ++ drop 25 (replicate 26 0x2E))
    /\
    java_chars w2 (Some 0%nat) (flag_plaintext ++ drop 25 (replicate 26 0x2E)).
Proof.
  apply (decryptFlagIntoBuffer_twice
           (DecryptEnv AcqDirect (Some stale) (Some stale) true)
           (DecryptEnv AcqCopy None (Some stale) false)
           (one_array (replicate 26 0x2E)) 0%nat (replicate 26 0x2E)).
  - array_at 0%nat.
  - cbn; lia.
  - reflexivity.
Defined.

(** X18. Of the memory that existed before the call, [wipeFlagBuffer]
    changes at most the array it was given; it signals nothing, and the
    one block it may allocate, the runtime's copy, is zeroed and released
    when it returns. *)
Theorem wipeFlagBuffer_touches_only_its_buffer acq w a cs :
  java_chars w (Some a) cs ->
  Z.of_nat (length cs) < 2 ^ 31 ->
  exists w',
    wipeFlagBuffer acq (Some a) w = Some (tt, w') /\
    pending w' = pending w /\ trace w' = trace w /\
    (forall i, (i < length (heap w))%nat -> i <> a ->
               heap w' !! i = heap w !! i) /\
    (forall i blk, (length (heap w) <= i)%nat -> heap w' !! i = Some blk ->
                   live blk = false /\ all_zero (bytes blk) = true).
Proof.
  destruct w as [h p t].
  intros [Hcs (a1 & lk & E1 & Ha)] Hlen. injection E1 as <-.
  cbn [heap] in Ha. pose proof (lookup_lt_Some _ _ _ Ha) as Halt.
  rewrite (wipeFlagBuffer_run acq _ _ _ _ _ _ Ha Hlen).
  eexists. split; [reflexivity|]. cbn [heap pending trace].
  split; [reflexivity|]. split; [reflexivity|].
  destruct acq.
  - split; [reflexivity|]. intros i blk Hi Hl.
    apply lookup_lt_Some in Hl. lia.
  - split; [intros i Hi Hne; apply list_lookup_insert_ne; congruence|].
    intros i blk Hi Hl. apply lookup_lt_Some in Hl.
    rewrite length_insert in Hl. lia.
  - split; [intros i Hi Hne; apply lookup_app_l; exact Hi|].
    intros i blk Hi Hl. rewrite lookup_app_r in Hl by exact Hi.
    destruct (i - length h)%nat; [|discriminate Hl].
    injection Hl as <-. split; [reflexivity|]. apply all_zero_replicate.
Qed.

Lemma wipeFlagBuffer_touches_only_its_buffer_witness :
  exists w',
    wipeFlagBuffer AcqCopy (Some 1%nat) (two_arrays admin [0x41; 0x42])
    = Some (tt, w') /\
    pending w' = pending (two_arrays admin [0x41; 0x42]) /\
    trace w' = trace (two_arrays admin [0x41; 0x42]) /\
    (forall i, (i < 2)%nat ->
               i <> 1%nat ->
               heap w' !! i = heap (two_arrays admin [0x41; 0x42]) !! i) /\
    (forall i blk,
       (2 <= i)%nat ->
       heap w' !! i = Some blk ->
       live blk = false /\ all_zero (bytes blk) = true).
Proof.
  apply (wipeFlagBuffer_touches_only_its_buffer AcqCopy
           (two_arrays admin [0x41; 0x42]) 1%nat [0x41; 0x42]).
  - array_at 1%nat.
  - cbn; lia.
Defined.
